(** * Sahay / SyncApply frontend: the API client, the Dashboard handlers and
    the sign-in handler, embedded from

      - [frontend/src/lib/api.js]
      - [frontend/src/Dashboard.jsx]
      - [frontend/src/lib/supabase.js] and [frontend/src/App.jsx]

    JavaScript values are a small inductive type, an [async] function is a
    computation in a trace-and-exception monad (every [setState] call, every
    [fetch] and every [console.error] is an event of the trace), and the
    backend and the auth provider are oracles the computations are run
    against.  React state is the replay of the setter events of a trace over
    the state the component had before. *)

From Stdlib Require Import ZArith Ascii String List Bool.
From stdpp Require Import base option gmap strings list pretty.

Local Open Scope string_scope.
Local Open Scope list_scope.

Set Warnings "-register-all".

(** ** JavaScript values *)

(** The values the client handles: what [JSON.parse] delivers, plus
    [undefined] (a missing property, an omitted argument).  Numbers are the
    integral ones; the client only tests numbers for truthiness and prints
    them into URLs. *)
Inductive JsVal : Type :=
| VUndefined
| VNull
| VBool (b : bool)
| VNum (n : Z)
| VStr (s : string)
| VArr (xs : list JsVal)
| VObj (fields : list (string * JsVal)).

(** [if (v)], [!v], [v || d], [v && d]: JavaScript truthiness. *)
Definition truthy (v : JsVal) : bool :=
  match v with
  | VUndefined | VNull => false
  | VBool b => b
  | VNum n => negb (n =? 0)%Z
  | VStr s => negb (String.eqb s "")
  | VArr _ | VObj _ => true
  end.

(** [a || b] *)
Definition js_or (a b : JsVal) : JsVal := if truthy a then a else b.

(** A parameter with a default value: the default is taken when the argument
    is [undefined] (or left out). *)
Definition default_arg (d v : JsVal) : JsVal :=
  match v with
  | VUndefined => d
  | _ => v
  end.

(** [String(v)], as a template literal and [URLSearchParams] apply it.  An
    array prints its elements separated by commas, [null] and [undefined]
    elements as nothing; an object prints as [[object Object]].  A number
    prints its digits, which is what JavaScript does for the integers below
    10^21 (from there on it prints an exponent). *)
Fixpoint js_to_string (v : JsVal) : string :=
  match v with
  | VUndefined => "undefined"
  | VNull => "null"
  | VBool true => "true"
  | VBool false => "false"
  | VNum n => pretty n
  | VStr s => s
  | VArr xs =>
      (fix join (l : list JsVal) : string :=
         match l with
         | [] => ""
         | x :: r =>
             let here :=
               match x with
               | VUndefined | VNull => ""
               | _ => js_to_string x
               end in
             match r with
             | [] => here
             | _ :: _ => here +:+ "," +:+ join r
             end
         end) xs
  | VObj _ => "[object Object]"
  end.

(** Own-property lookup in an object (keys of an object are distinct). *)
Fixpoint obj_get (fields : list (string * JsVal)) (k : string) : JsVal :=
  match fields with
  | [] => VUndefined
  | (k', v) :: r => if String.eqb k' k then v else obj_get r k
  end.

(** A thrown [Error] (also [TypeError], [SyntaxError], the auth provider's
    [AuthError]): the handlers read nothing but [.message]. *)
Record Exn : Type := mkExn { message : string }.

(** [v.k] for the property names the client reads ([detail], [id],
    [subject], [sender], [date]); none of them is a built-in property of a
    primitive or of an array, so those give [undefined].  Reading a property
    of [null] or [undefined] throws a [TypeError] (V8's wording). *)
Definition get_prop (v : JsVal) (k : string) : Exn + JsVal :=
  match v with
  | VUndefined =>
      inl (mkExn ("Cannot read properties of undefined (reading '" +:+ k +:+ "')"))
  | VNull =>
      inl (mkExn ("Cannot read properties of null (reading '" +:+ k +:+ "')"))
  | VObj fields => inr (obj_get fields k)
  | _ => inr VUndefined
  end.

(** [a === b] on primitives.  Arrays and objects compare by reference, which
    the value type does not carry: two of them are never reported identical.
    What is proved about [===] is therefore stated for primitive operands
    (strings, as the ids of emails are). *)
Definition strict_eq (a b : JsVal) : bool :=
  match a, b with
  | VUndefined, VUndefined => true
  | VNull, VNull => true
  | VBool x, VBool y => Bool.eqb x y
  | VNum x, VNum y => (x =? y)%Z
  | VStr x, VStr y => String.eqb x y
  | _, _ => false
  end.

(** ** [URLSearchParams] serialisation *)

Definition hex_digit (n : N) : ascii :=
  if (n <? 10)%N then ascii_of_N (48 + n) else ascii_of_N (55 + n).

(** Bytes the application/x-www-form-urlencoded serialiser leaves alone:
    [*], [-], [.], [_], digits and ASCII letters. *)
Definition form_unreserved (c : ascii) : bool :=
  let n := N_of_ascii c in
  ((n =? 42) || (n =? 45) || (n =? 46) || (n =? 95)
   || ((48 <=? n) && (n <=? 57))
   || ((65 <=? n) && (n <=? 90))
   || ((97 <=? n) && (n <=? 122)))%N.

(** The serialiser on the UTF-8 bytes of a text.  The strings of this
    development are byte strings, the UTF-8 form of the JavaScript string;
    a JavaScript string with a lone surrogate has no such form (the
    serialiser writes U+FFFD in its place) and has no counterpart here. *)
Fixpoint form_urlencode (s : string) : string :=
  match s with
  | EmptyString => EmptyString
  | String c r =>
      let n := N_of_ascii c in
      if form_unreserved c then String c (form_urlencode r)
      else if (n =? 32)%N then String "+" (form_urlencode r)
      else String "%" (String (hex_digit (n / 16))
                         (String (hex_digit (n mod 16)) (form_urlencode r)))
  end.

(** [`${new URLSearchParams({k1: v1, ...})}`] *)
Fixpoint url_search_params (kvs : list (string * JsVal)) : string :=
  match kvs with
  | [] => ""
  | (k, v) :: r =>
      let here := form_urlencode k +:+ "=" +:+ form_urlencode (js_to_string v) in
      match r with
      | [] => here
      | _ :: _ => here +:+ "&" +:+ url_search_params r
      end
  end.

(** ** Events and the monad of [async] functions *)

(** The [init] argument of [fetch]; [req_method = None] is a request without
    a [method] field, which [fetch] sends as GET. *)
Record Request : Type := mkRequest {
  req_url : string;
  req_method : option string;
  req_headers : gmap string string
}.

Inductive Event : Type :=
| EFetch (r : Request)
| EConsoleError (label : string) (e : Exn)
| ESetEmails (v : JsVal)
| ESetApplications (v : JsVal)
| ESetLoading (b : bool)
| ESetError (v : JsVal)
| ESetProcessingId (v : JsVal)
| ESignInWithOAuth (provider scopes : string)
| ESetSignInLoading (b : bool).

(** An [async] function run to completion: the events it performed, in
    order, and how its promise settled ([inl]: rejected, [inr]: resolved). *)
Definition M (A : Type) : Type := list Event * (Exn + A).

Definition ret {A} (a : A) : M A := ([], inr a).

Definition throw {A} (e : Exn) : M A := ([], inl e).

Definition bind {A B} (m : M A) (f : A -> M B) : M B :=
  match m with
  | (t, inl e) => (t, inl e)
  | (t, inr a) => let '(t', r) := f a in (t ++ t', r)
  end.

Definition emit (ev : Event) : M unit := ([ev], inr tt).

(** [try { body } catch (err) { handler err }] *)
Definition try_catch {A} (body : M A) (handler : Exn -> M A) : M A :=
  match body with
  | (t, inl e) => let '(t', r) := handler e in (t ++ t', r)
  | (t, inr a) => (t, inr a)
  end.

(** [try { body } finally { fin }] *)
Definition try_finally {A} (body : M A) (fin : M unit) : M A :=
  let '(t, r) := body in
  match fin with
  | (t', inl e) => (t ++ t', inl e)
  | (t', inr _) => (t ++ t', r)
  end.

(** [p.catch(h)] on a promise. *)
Definition promise_catch {A} (p : M A) (h : Exn -> M A) : M A := try_catch p h.

Declare Scope js_scope.
Delimit Scope js_scope with js.
Notation "'await' x ':=' m 'in' k" := (bind m (fun x => k))
  (at level 10, x name, m at level 100, k at level 200) : js_scope.
Notation "'step' m 'in' k" := (bind m (fun _ => k))
  (at level 10, m at level 100, k at level 200) : js_scope.

Definition trace {A} (m : M A) : list Event := fst m.
Definition outcome {A} (m : M A) : Exn + A := snd m.

(** The requests a trace sent, in order. *)
Definition requests (t : list Event) : list Request :=
  omap (fun ev => match ev with EFetch r => Some r | _ => None end) t.

(** ** The backend and the auth provider, as oracles *)

(** [response.json()]: the parsed body, or a rejection when the body is not
    JSON. *)
Inductive Body : Type :=
| Parsed (j : JsVal)
| Malformed (e : Exn).

Record Response : Type := mkResponse { resp_ok : bool; resp_body : Body }.

(** [fetch] rejects (no connection, CORS, ...) or resolves with a response. *)
Inductive FetchOutcome : Type :=
| Rejects (e : Exn)
| Resolves (r : Response).

(** [supabase.auth.signInWithOAuth]: it rejects, or resolves with
    [{ data, error }], [error] being [null] or an [AuthError]. *)
Inductive AuthOutcome : Type :=
| AuthRejects (e : Exn)
| AuthResolves (data : JsVal) (error : option Exn).

(** The [options] argument of [apiRequest]; [None] stands for a field the
    object literal does not have. *)
Record Options : Type := mkOptions {
  opt_method : option string;
  opt_headers : option (gmap string string)
}.

Definition no_options : Options := mkOptions None None.
Definition post_options : Options := mkOptions (Some "POST") None.

Definition lift_result {A} (r : Exn + A) : M A := ([], r).

(** ** [lib/api.js] *)

Module Api.
Section WithBackend.

(** [import.meta.env.VITE_API_URL] *)
Variable VITE_API_URL : JsVal.

(** What the backend answers to a request.  Within one handler run every
  request is sent at most once, so an answer per request is general. *)
Variable net : Request -> FetchOutcome.

Definition API_BASE : string :=
js_to_string (js_or VITE_API_URL (VStr "http://localhost:8000")).

Definition fetch (r : Request) : M Response :=
([EFetch r],
 match net r with
 | Rejects e => inl e
 | Resolves resp => inr resp
 end).

Definition json (resp : Response) : M JsVal :=
match resp_body resp with
| Parsed j => ret j
| Malformed e => throw e
end.

(** The [headers] object [apiRequest] builds: the content type, overridden
  by whatever [options.headers] spreads in, then [Authorization] when
  the token is truthy. *)
Definition request_headers (options : Options) (token : JsVal)
: gmap string string :=
let headers :=
  default ∅ (opt_headers options) ∪ {[ "Content-Type" := "application/json" ]} in
if truthy token
then <[ "Authorization" := "Bearer " +:+ js_to_string token ]> headers
else headers.

(** The request [apiRequest] hands to [fetch]. *)
Definition request_of (endpoint : string) (options : option Options)
         (token : JsVal) : Request :=
let options := default no_options options in
let token := default_arg VNull token in
mkRequest (API_BASE +:+ endpoint) (opt_method options)
          (request_headers options token).

Definition apiRequest (endpoint : string) (options : option Options)
         (token : JsVal) : M JsVal :=
(await response := fetch (request_of endpoint options token) in
 if negb (resp_ok response) then
   await error := promise_catch (json response)
                    (fun _ => ret (VObj [("detail", VStr "Unknown error")])) in
   await detail := lift_result (get_prop error "detail") in
   throw (mkExn (js_to_string (js_or detail (VStr "API request failed"))))
 else
   json response)%js.

Definition emails_endpoint (query maxResults : JsVal) : string :=
"/api/emails?" +:+
url_search_params [("query", default_arg (VStr "in:inbox") query);
                   ("max_results", default_arg (VNum 10) maxResults)].

Definition fetchEmails (token query maxResults : JsVal) : M JsVal :=
apiRequest (emails_endpoint query maxResults) (Some no_options) token.

Definition email_endpoint (emailId : JsVal) : string :=
"/api/emails/" +:+ js_to_string emailId.

Definition fetchEmail (token emailId : JsVal) : M JsVal :=
apiRequest (email_endpoint emailId) (Some no_options) token.

Definition save_endpoint (emailId : JsVal) : string :=
"/api/applications/save/" +:+ js_to_string emailId.

Definition saveApplication (token emailId : JsVal) : M JsVal :=
apiRequest (save_endpoint emailId) (Some post_options) token.

Definition applications_endpoint : string := "/api/applications".

Definition getApplications : M JsVal :=
apiRequest applications_endpoint None VUndefined.

Definition process_latest_endpoint (query : JsVal) : string :=
"/api/applications/process-latest?" +:+
url_search_params [("query", default_arg (VStr "in:inbox") query)].

Definition processLatestEmail (token query : JsVal) : M JsVal :=
apiRequest (process_latest_endpoint query) (Some post_options) token.

Definition health_endpoint : string := "/".

Definition healthCheck : M JsVal :=
apiRequest health_endpoint None VUndefined.

End WithBackend.
End Api.

(** ** [Dashboard.jsx] *)

Module Dashboard.

(** The five [useState] cells of the component. *)
Record State : Type := mkState {
  emails : JsVal;
  applications : JsVal;
  loading : bool;
  error : JsVal;
  processingId : JsVal
}.

Definition initial : State :=
  mkState (VArr []) (VArr []) false VNull VNull.

(** What a setter call does to the component's state. *)
Definition apply_event (st : State) (ev : Event) : State :=
  match ev with
  | ESetEmails v =>
      mkState v (applications st) (loading st) (error st) (processingId st)
  | ESetApplications v =>
      mkState (emails st) v (loading st) (error st) (processingId st)
  | ESetLoading b =>
      mkState (emails st) (applications st) b (error st) (processingId st)
  | ESetError v =>
      mkState (emails st) (applications st) (loading st) v (processingId st)
  | ESetProcessingId v =>
      mkState (emails st) (applications st) (loading st) (error st) v
  | _ => st
  end.

Definition replay (st : State) (t : list Event) : State :=
  fold_left apply_event t st.

(** The state once a handler has run to completion from [st]. *)
Definition after {A} (st : State) (m : M A) : State := replay st (trace m).

(** The events a handler performs before its first request goes out, and
    the state the component shows while that request is in flight. *)
Fixpoint before_first_fetch (t : list Event) : list Event :=
  match t with
  | [] => []
  | EFetch _ :: _ => []
  | ev :: r => ev :: before_first_fetch r
  end.

Definition in_flight {A} (st : State) (m : M A) : State :=
  replay st (before_first_fetch (trace m)).

Definition no_token_message : string :=
  "No Gmail token available. Please sign in again.".

Section Handlers.

Variable VITE_API_URL : JsVal.
Variable net : Request -> FetchOutcome.

(** The component's props. *)
Variable providerToken : JsVal.

(** The requests the handlers send. *)
Definition emails_request (token : JsVal) : Request :=
  Api.request_of VITE_API_URL
    (Api.emails_endpoint (VStr "in:inbox") (VNum 10)) (Some no_options) token.

Definition applications_request : Request :=
  Api.request_of VITE_API_URL Api.applications_endpoint None VUndefined.

Definition process_latest_request (token : JsVal) : Request :=
  Api.request_of VITE_API_URL
    (Api.process_latest_endpoint VUndefined) (Some post_options) token.

Definition save_request (token emailId : JsVal) : Request :=
  Api.request_of VITE_API_URL
    (Api.save_endpoint emailId) (Some post_options) token.

Definition loadApplications : M unit :=
  try_catch
    (await apps := Api.getApplications VITE_API_URL net in
     emit (ESetApplications apps))%js
    (fun err => emit (EConsoleError "Failed to load applications:" err)).

Definition handleFetchEmails : M unit :=
  if negb (truthy providerToken) then
    emit (ESetError (VStr no_token_message))
  else
    (step emit (ESetLoading true) in
     step emit (ESetError VNull) in
     try_finally
       (try_catch
          (await result :=
             Api.fetchEmails VITE_API_URL net providerToken
                             (VStr "in:inbox") (VNum 10) in
           emit (ESetEmails (js_or result (VArr []))))
          (fun err => emit (ESetError (VStr (message err)))))
       (emit (ESetLoading false)))%js.

Definition handleProcessLatest : M unit :=
  if negb (truthy providerToken) then
    emit (ESetError (VStr no_token_message))
  else
    (step emit (ESetLoading true) in
     step emit (ESetError VNull) in
     try_finally
       (try_catch
          (step Api.processLatestEmail VITE_API_URL net providerToken
                                       VUndefined in
           loadApplications)
          (fun err => emit (ESetError (VStr (message err)))))
       (emit (ESetLoading false)))%js.

Definition handleSaveEmail (emailId : JsVal) : M unit :=
  if negb (truthy providerToken) then ret tt
  else
    (step emit (ESetProcessingId emailId) in
     try_finally
       (try_catch
          (step Api.saveApplication VITE_API_URL net providerToken emailId in
           loadApplications)
          (fun err => emit (ESetError (VStr (message err)))))
       (emit (ESetProcessingId VNull)))%js.

End Handlers.

(** *** What the component renders *)

Record ButtonView : Type := mkButton { disabled : bool; spinning : bool }.

(** One row of the "Recent Emails" list: the React key, the three
    expressions put into the markup, and the save button. *)
Record EmailRow : Type := mkRow {
  row_key : JsVal;
  row_title : JsVal;
  row_sender : JsVal;
  row_date : JsVal;
  row_save : ButtonView
}.

Definition render_email (pid email : JsVal) : Exn + EmailRow :=
  match get_prop email "id", get_prop email "subject",
        get_prop email "sender", get_prop email "date" with
  | inr id, inr subject, inr sender, inr date =>
      inr (mkRow id (js_or subject (VStr "No Subject")) sender date
                 (mkButton (strict_eq pid id) (strict_eq pid id)))
  | inl e, _, _, _ | _, inl e, _, _ | _, _, inl e, _ | _, _, _, inl e => inl e
  end.

(** [emails.map(...)] over the elements of the array in the emails state. *)
Fixpoint render_emails (pid : JsVal) (xs : list JsVal) : Exn + list EmailRow :=
  match xs with
  | [] => inr []
  | email :: r =>
      match render_email pid email with
      | inl e => inl e
      | inr row =>
          match render_emails pid r with
          | inl e => inl e
          | inr rows => inr (row :: rows)
          end
      end
  end.

(** [{error && <div>... {error}</div>}]: the banner and its text. *)
Definition banner (st : State) : option JsVal :=
  if truthy (error st) then Some (error st) else None.

Definition fetch_button (st : State) : ButtonView :=
  mkButton (loading st) (loading st).

Definition process_button (st : State) : ButtonView :=
  mkButton (loading st) (loading st).

(** The Refresh button has no [disabled] attribute and no spinner. *)
Definition refresh_button (st : State) : ButtonView :=
  mkButton false false.

Definition save_button (st : State) (emailId : JsVal) : ButtonView :=
  mkButton (strict_eq (processingId st) emailId)
           (strict_eq (processingId st) emailId).

End Dashboard.

(** ** [lib/supabase.js] and the [App] component *)

Module App.

Definition gmail_scopes : string :=
  "email https://www.googleapis.com/auth/gmail.readonly".

Section WithAuth.

Variable auth : AuthOutcome.

(** [supabase.auth.signInWithOAuth({ provider, options: { scopes, redirectTo } })],
    logged with its provider and scopes; [redirectTo] is the origin of the
    page. *)
Definition signInWithOAuth (provider scopes : string)
  : M (JsVal * option Exn) :=
  ([ESignInWithOAuth provider scopes],
   match auth with
   | AuthRejects e => inl e
   | AuthResolves data error => inr (data, error)
   end).

Definition signInWithGoogle : M JsVal :=
  (await r := signInWithOAuth "google" gmail_scopes in
   match snd r with
   | Some error => throw error
   | None => ret (fst r)
   end)%js.

Definition handleGoogleSignIn : M unit :=
  (step emit (ESetSignInLoading true) in
   try_finally
     (try_catch
        (step signInWithGoogle in ret tt)
        (fun error => emit (EConsoleError "Sign in error:" error)))
     (emit (ESetSignInLoading false)))%js.

End WithAuth.

(** The one [useState] cell of [App] the sign-in handler writes; the
    component has no error cell. *)
Definition apply_event (signInLoading : bool) (ev : Event) : bool :=
  match ev with
  | ESetSignInLoading b => b
  | _ => signInLoading
  end.

End App.

(** ** Sample oracles *)

(** A backend that answers every request with status 200 and body [j]. *)
Definition backend_ok (j : JsVal) : Request -> FetchOutcome :=
  fun _ => Resolves (mkResponse true (Parsed j)).

(** A backend that answers every request with an error status and the body
    [{"detail": d}]. *)
Definition backend_error (d : string) : Request -> FetchOutcome :=
  fun _ => Resolves (mkResponse false (Parsed (VObj [("detail", VStr d)]))).

(** No backend at all: [fetch] rejects. *)
Definition backend_down : Request -> FetchOutcome :=
  fun _ => Rejects (mkExn "Failed to fetch").

(** An email summary with an empty subject line. *)
Definition untitled_email : JsVal :=
  VObj [("id", VStr "18c2f"); ("subject", VStr "");
        ("sender", VStr "jobs@example.com"); ("date", VStr "Mon, 1 Jan 2026")].

(** A Google provider token, as the session carries it. *)
Definition sample_token : JsVal := VStr "ya29.a0AfH6SM".

(** A Dashboard that already lists one email. *)
Definition inbox_state : Dashboard.State :=
  Dashboard.mkState (VArr [untitled_email]) (VArr []) false VNull VNull.

(** ** More of [lib/supabase.js]: the session *)

(** [a ?? b] *)
Definition js_nullish (a b : JsVal) : JsVal :=
  match a with
  | VUndefined | VNull => b
  | _ => a
  end.

(** [v?.k] for the property names [user], [provider_token] and [email]
    (none is a built-in property of a primitive or of an array): [undefined]
    when [v] is [null] or [undefined], the property otherwise. *)
Definition opt_chain (v : JsVal) (k : string) : JsVal :=
  match v with
  | VObj fields => obj_get fields k
  | _ => VUndefined
  end.

Module Supabase.

(** [supabase.auth.signOut()]: it rejects, or resolves with [{ error }]. *)
Inductive SignOutOutcome : Type :=
| SignOutRejects (e : Exn)
| SignOutResolves (error : option Exn).

(** [supabase.auth.getSession()]: it rejects, or resolves with
    [{ data: { session }, error }]; the client library always delivers the
    [data] object, with [session] null when there is none. *)
Inductive SessionOutcome : Type :=
| SessionRejects (e : Exn)
| SessionResolves (session : JsVal) (error : option Exn).

Definition signOut (o : SignOutOutcome) : Exn + unit :=
  match o with
  | SignOutRejects e => inl e
  | SignOutResolves (Some error) => inl error
  | SignOutResolves None => inr tt
  end.

Definition getSession (o : SessionOutcome) : Exn + JsVal :=
  match o with
  | SessionRejects e => inl e
  | SessionResolves session (Some error) => inl error
  | SessionResolves session None => inr session
  end.

Definition getProviderToken (o : SessionOutcome) : Exn + JsVal :=
  match getSession o with
  | inl e => inl e
  | inr session => inr (js_or (opt_chain session "provider_token") VNull)
  end.

End Supabase.

(** ** More of [App.jsx]: the auth hook, sign-out and the routing *)

Module AppAuth.

(** The three [useState] cells of [useAuth]. *)
Record State : Type := mkState {
  user : JsVal;
  providerToken : JsVal;
  loading : bool
}.

Definition initial : State := mkState VNull VNull true.

Inductive AuthEvent : Type :=
| ASetUser (v : JsVal)
| ASetProviderToken (v : JsVal)
| ASetLoading (b : bool)
| AConsoleError (label : string) (e : Exn).

Definition apply_event (st : State) (ev : AuthEvent) : State :=
  match ev with
  | ASetUser v => mkState v (providerToken st) (loading st)
  | ASetProviderToken v => mkState (user st) v (loading st)
  | ASetLoading b => mkState (user st) (providerToken st) b
  | AConsoleError _ _ => st
  end.

Definition replay (st : State) (t : list AuthEvent) : State :=
  fold_left apply_event t st.

(** The three setter calls both callbacks make for a session. *)
Definition session_setters (session : JsVal) : list AuthEvent :=
  [ASetUser (js_nullish (opt_chain session "user") VNull);
   ASetProviderToken (js_nullish (opt_chain session "provider_token") VNull);
   ASetLoading false].

(** [getSession().then(...).catch(...)] of the mount effect. *)
Definition on_initial_session (o : Supabase.SessionOutcome) : list AuthEvent :=
  match Supabase.getSession o with
  | inr session => session_setters session
  | inl error => [AConsoleError "Error getting session:" error; ASetLoading false]
  end.

(** The callback handed to [onAuthStateChange]. *)
Definition on_auth_change (event session : JsVal) : list AuthEvent :=
  session_setters session.

(** [handleSignOut] of [App]: it sets nothing; a failure goes to the
    console. *)
Definition handleSignOut (o : Supabase.SignOutOutcome) : list AuthEvent :=
  match Supabase.signOut o with
  | inr _ => []
  | inl error => [AConsoleError "Sign out error:" error]
  end.

(** What [App] puts into [<main>]. *)
Inductive Screen : Type :=
| ShowSpinner
| ShowDashboard (user providerToken : JsVal)
| ShowLanding (signInDisabled : bool).

Definition screen (st : State) (signInLoading : bool) : Screen :=
  if loading st then ShowSpinner
  else if truthy (user st) then ShowDashboard (user st) (providerToken st)
  else ShowLanding signInLoading.

End AppAuth.

(** ** More of [Dashboard.jsx]: the header and the applications list *)

Module DashboardView.

(** [s.split(c)[0]]: what comes before the first [c]. *)
Fixpoint before_char (c : ascii) (s : string) : string :=
  match s with
  | EmptyString => EmptyString
  | String a r => if Ascii.eqb a c then EmptyString else String a (before_char c r)
  end.

(** [user?.email?.split('@')[0]], the name in the welcome line.  Calling
    [split] on an email that is neither nullish nor a string throws a
    [TypeError]. *)
Definition welcome_name (user : JsVal) : Exn + JsVal :=
  match opt_chain user "email" with
  | VUndefined | VNull => inr VUndefined
  | VStr email => inr (VStr (before_char "@" email))
  | _ => inl (mkExn "user?.email?.split is not a function")
  end.

(** The class of the status badge. *)
Definition badge_class (status : JsVal) : string :=
  if strict_eq status (VStr "applied") then "bg-blue-500/20 text-blue-400"
  else if strict_eq status (VStr "interview") then "bg-green-500/20 text-green-400"
  else if strict_eq status (VStr "rejected") then "bg-red-500/20 text-red-400"
  else "bg-gray-500/20 text-gray-400".

(** One row of the "Saved Applications" list. *)
Record ApplicationRow : Type := mkAppRow {
  app_key : JsVal;
  app_company : JsVal;
  app_title : JsVal;
  app_date : JsVal;
  app_badge : string;
  app_status : JsVal
}.

Definition render_application (app : JsVal) (index : nat) : Exn + ApplicationRow :=
  match get_prop app "id", get_prop app "company_name",
        get_prop app "job_title", get_prop app "applied_date",
        get_prop app "status" with
  | inr id, inr company_name, inr job_title, inr applied_date, inr status =>
      inr (mkAppRow (js_or id (VNum (Z.of_nat index)))
                    (js_or company_name (VStr "Unknown Company"))
                    (js_or job_title (VStr "Job Application"))
                    (js_or applied_date (VStr "Recently"))
                    (badge_class status)
                    (js_or status (VStr "pending")))
  | inl e, _, _, _, _ | _, inl e, _, _, _ | _, _, inl e, _, _
  | _, _, _, inl e, _ | _, _, _, _, inl e => inl e
  end.

(** [applications.map((app, index) => ...)] from [index] on. *)
Fixpoint render_applications (index : nat) (xs : list JsVal)
  : Exn + list ApplicationRow :=
  match xs with
  | [] => inr []
  | app :: r =>
      match render_application app index with
      | inl e => inl e
      | inr row =>
          match render_applications (S index) r with
          | inl e => inl e
          | inr rows => inr (row :: rows)
          end
      end
  end.

End DashboardView.

(** ** Sequences of handler runs *)

Module Session.

(** What the user can start on the Dashboard (mounting it counts as a
    Refresh). *)
Inductive Click : Type :=
| ClickFetchEmails
| ClickProcessLatest
| ClickRefresh
| ClickSave (emailId : JsVal).

(** One handler run: the click, the token the component holds at that
    moment and what the backend answers during the run. *)
Record Run : Type := mkRun {
  run_click : Click;
  run_token : JsVal;
  run_net : Request -> FetchOutcome
}.

Definition run_handler (VITE_API_URL : JsVal) (r : Run) : M unit :=
  match run_click r with
  | ClickFetchEmails =>
      Dashboard.handleFetchEmails VITE_API_URL (run_net r) (run_token r)
  | ClickProcessLatest =>
      Dashboard.handleProcessLatest VITE_API_URL (run_net r) (run_token r)
  | ClickRefresh => Dashboard.loadApplications VITE_API_URL (run_net r)
  | ClickSave emailId =>
      Dashboard.handleSaveEmail VITE_API_URL (run_net r) (run_token r) emailId
  end.

(** The state after the runs [rs], one after the other. *)
Definition run_all (VITE_API_URL : JsVal) (st : Dashboard.State) (rs : list Run)
  : Dashboard.State :=
  fold_left (fun st r => Dashboard.after st (run_handler VITE_API_URL r)) rs st.

(** A Dashboard with no request under way: no spinner, no save in progress,
    an emails state that is there, and an error that is null or a text. *)
Definition settled (st : Dashboard.State) : Prop :=
  Dashboard.loading st = false
  /\ Dashboard.processingId st = VNull
  /\ truthy (Dashboard.emails st) = true
  /\ (Dashboard.error st = VNull \/ exists m, Dashboard.error st = VStr m).

End Session.

(** ** Reading the [URLSearchParams] encoding *)

(** What [form_urlencode] writes for one byte. *)
Definition encode_byte (c : ascii) : string :=
  let n := N_of_ascii c in
  if form_unreserved c then String c EmptyString
  else if (n =? 32)%N then "+"
  else String "%" (String (hex_digit (n / 16))
                     (String (hex_digit (n mod 16)) EmptyString)).

(** How often the byte [c] occurs in [s]. *)
Fixpoint count_byte (c : ascii) (s : string) : nat :=
  match s with
  | EmptyString => 0
  | String a r => (if Ascii.eqb a c then 1 else 0) + count_byte c r
  end.

(** Every byte of [s] passes [p]. *)
Fixpoint string_forall (p : ascii -> bool) (s : string) : bool :=
  match s with
  | EmptyString => true
  | String a r => p a && string_forall p r
  end.

(** The bytes an encoded name or value is made of: the unreserved ones,
    [+] for a space, and [%] opening an escape. *)
Definition url_safe (c : ascii) : bool :=
  form_unreserved c || Ascii.eqb c "+" || Ascii.eqb c "%".

(** The value of a hexadecimal digit. *)
Definition hex_value (c : ascii) : N :=
  let n := N_of_ascii c in
  if (n <? 58)%N then n - 48 else n - 55.

(** The decoding a server applies to a form-encoded string; it is the
    reference the encoding is read against. *)
Fixpoint form_urldecode (s : string) : string :=
  match s with
  | EmptyString => EmptyString
  | String c r =>
      if Ascii.eqb c "+" then String " " (form_urldecode r)
      else if Ascii.eqb c "%" then
        match r with
        | String h (String l r') =>
            String (ascii_of_N (16 * hex_value h + hex_value l)) (form_urldecode r')
        | _ => String c (form_urldecode r)
        end
      else String c (form_urldecode r)
  end.

(** A gateway in front of the backend answering with an HTML error page:
    an error status and a body that is not JSON. *)
Definition backend_bad_gateway : Request -> FetchOutcome :=
  fun _ => Resolves (mkResponse false
                       (Malformed (mkExn "Unexpected token < in JSON at position 0"))).

(** A status 200 whose body is not JSON. *)
Definition backend_ok_html : Request -> FetchOutcome :=
  fun _ => Resolves (mkResponse true
                       (Malformed (mkExn "Unexpected token < in JSON at position 0"))).

(** A backend whose POST endpoints answer and whose GET endpoints fail. *)
Definition backend_post_only : Request -> FetchOutcome :=
  fun r =>
    match req_method r with
    | Some _ => Resolves (mkResponse true (Parsed (VObj [("status", VStr "saved")])))
    | None => Rejects (mkExn "Failed to fetch")
    end.

(** A session of a signed-in user, as restored from storage: it has a user
    and no provider token. *)
Definition restored_session : JsVal :=
  VObj [("access_token", VStr "eyJhbGciOi");
        ("user", VObj [("id", VStr "u-1"); ("email", VStr "ada@example.com")])].

(** A saved application as the backend lists it, with no status. *)
Definition sample_application : JsVal :=
  VObj [("id", VNum 7); ("company_name", VStr "Initech");
        ("job_title", VStr ""); ("applied_date", VNull)].

(** ** Endpoints *)

(** The endpoints of the backend that the functions of [lib/api.js] name:
    the four the Dashboard works with, the single email and the root. *)
Inductive Endpoint : Type :=
| GetEmails
| GetApplications
| PostSaveApplication
| PostProcessLatest
| GetEmail
| GetRoot.

Definition dashboard_endpoint (e : Endpoint) : bool :=
  match e with
  | GetEmails | GetApplications | PostSaveApplication | PostProcessLatest => true
  | GetEmail | GetRoot => false
  end.

(** The HTTP method [fetch] uses for [options]. *)
Definition method_of (options : option Options) : string :=
  default "GET" (opt_method (default no_options options)).

(** [s] without its prefix [p], when it starts with [p]. *)
Fixpoint strip_prefix (p s : string) : option string :=
  match p with
  | EmptyString => Some s
  | String a p' =>
      match s with
      | String b s' => if Ascii.eqb a b then strip_prefix p' s' else None
      | EmptyString => None
      end
  end.

(** Bytes of an id that name one path segment whatever the URL parser does
    with the string: ASCII letters, digits, [-] and [_] (no [/], [\], [.],
    [%], [?], [#], no white space). *)
Definition segment_byte (c : ascii) : bool :=
  let n := N_of_ascii c in
  ((n =? 45) || (n =? 95)
   || ((48 <=? n) && (n <=? 57))
   || ((65 <=? n) && (n <=? 90))
   || ((97 <=? n) && (n <=? 122)))%N.

Definition clean_segment (s : string) : bool :=
  negb (String.eqb s "") && string_forall segment_byte s.

(** Bytes of a query that [URLSearchParams] wrote. *)
Definition query_byte (c : ascii) : bool :=
  url_safe c || Ascii.eqb c "&" || Ascii.eqb c "=".

(** The endpoint a call [apiRequest(endpoint, options)] targets, relative to
    [API_BASE], where the endpoint string settles it: the path is one of the
    fixed ones, followed by a query of [query_byte]s or by an id that is a
    [clean_segment].  An id is put into the endpoint string as it is, so
    for any other id ([..], or one with a [/], [?] or [#] in it) the path
    the request reaches is up to the URL parser of [fetch]: [None]. *)
Definition classify (options : option Options) (endpoint : string)
  : option Endpoint :=
  if String.eqb (method_of options) "GET" then
    if String.eqb endpoint "/" then Some GetRoot
    else if String.eqb endpoint "/api/applications" then Some GetApplications
    else
      match strip_prefix "/api/emails?" endpoint with
      | Some q => if string_forall query_byte q then Some GetEmails else None
      | None =>
          match strip_prefix "/api/emails/" endpoint with
          | Some id => if clean_segment id then Some GetEmail else None
          | None => None
          end
      end
  else if String.eqb (method_of options) "POST" then
    match strip_prefix "/api/applications/save/" endpoint with
    | Some id => if clean_segment id then Some PostSaveApplication else None
    | None =>
        match strip_prefix "/api/applications/process-latest?" endpoint with
        | Some q =>
            if string_forall query_byte q then Some PostProcessLatest else None
        | None => None
        end
    end
  else None.

(** The states the component shows while a request of the run [t] is out:
    one state per [fetch], each the replay of the events before it. *)
Fixpoint states_at_fetches (st : Dashboard.State) (t : list Event)
  : list Dashboard.State :=
  match t with
  | [] => []
  | EFetch _ :: r => st :: states_at_fetches st r
  | ev :: r => states_at_fetches (Dashboard.apply_event st ev) r
  end.

(** An error status whose body has an empty list as its [detail]. *)
Definition backend_error_no_text : Request -> FetchOutcome :=
  fun _ => Resolves (mkResponse false (Parsed (VObj [("detail", VArr [])]))).

(** ** Shapes of the computations *)

Section Shapes.

Variable VITE_API_URL : JsVal.
Variable net : Request -> FetchOutcome.

Abbreviation apiRequest := (Api.apiRequest VITE_API_URL net).
Abbreviation request_of := (Api.request_of VITE_API_URL).
Abbreviation emails_request := (Dashboard.emails_request VITE_API_URL).
Abbreviation applications_request := (Dashboard.applications_request VITE_API_URL).
Abbreviation process_latest_request := (Dashboard.process_latest_request VITE_API_URL).
Abbreviation save_request := (Dashboard.save_request VITE_API_URL).
Abbreviation loadApplications := (Dashboard.loadApplications VITE_API_URL net).
Abbreviation handleFetchEmails := (Dashboard.handleFetchEmails VITE_API_URL net).
Abbreviation handleProcessLatest := (Dashboard.handleProcessLatest VITE_API_URL net).
Abbreviation handleSaveEmail := (Dashboard.handleSaveEmail VITE_API_URL net).

Lemma apiRequest_trace endpoint options token :
  trace (apiRequest endpoint options token)
  = [EFetch (request_of endpoint options token)].
Proof.
  unfold Api.apiRequest, Api.fetch, bind, trace.
  destruct (net _) as [e | [[] [j | e]]]; simpl; try reflexivity.
  - destruct (get_prop j "detail"); reflexivity.
Qed.

Lemma apiRequest_eq endpoint options token :
  apiRequest endpoint options token
  = ([EFetch (request_of endpoint options token)],
     outcome (apiRequest endpoint options token)).
Proof.
  rewrite <- apiRequest_trace. unfold trace, outcome.
  destruct (apiRequest _ _ _); reflexivity.
Qed.

(** The promise [apiRequest] returns, by what the backend answers. *)
Lemma apiRequest_outcome endpoint options token :
  outcome (apiRequest endpoint options token)
  = match net (request_of endpoint options token) with
    | Rejects e => inl e
    | Resolves (mkResponse true (Parsed j)) => inr j
    | Resolves (mkResponse true (Malformed e)) => inl e
    | Resolves (mkResponse false (Malformed _)) => inl (mkExn "Unknown error")
    | Resolves (mkResponse false (Parsed j)) =>
        match get_prop j "detail" with
        | inl e => inl e
        | inr detail =>
            inl (mkExn (js_to_string (js_or detail (VStr "API request failed"))))
        end
    end.
Proof.
  unfold Api.apiRequest, Api.fetch, bind, outcome.
  destruct (net _) as [e | [[] [j | e]]]; simpl; try reflexivity.
  destruct (get_prop j "detail"); reflexivity.
Qed.

Lemma loadApplications_eq :
  loadApplications
  = ([EFetch applications_request;
      match outcome (Api.getApplications VITE_API_URL net) with
      | inr apps => ESetApplications apps
      | inl err => EConsoleError "Failed to load applications:" err
      end], inr tt).
Proof.
  unfold Dashboard.loadApplications, Api.getApplications.
  rewrite apiRequest_eq.
  destruct (outcome _); reflexivity.
Qed.

Lemma handleFetchEmails_eq token :
  truthy token = true ->
  handleFetchEmails token
  = ([ESetLoading true; ESetError VNull; EFetch (emails_request token);
      match outcome (Api.fetchEmails VITE_API_URL net token
                                     (VStr "in:inbox") (VNum 10)) with
      | inr result => ESetEmails (js_or result (VArr []))
      | inl err => ESetError (VStr (message err))
      end;
      ESetLoading false], inr tt).
Proof.
  intros Htok. unfold Dashboard.handleFetchEmails, Api.fetchEmails.
  rewrite Htok. simpl negb. cbv iota.
  rewrite apiRequest_eq.
  destruct (outcome _); reflexivity.
Qed.

Lemma handleProcessLatest_eq token :
  truthy token = true ->
  handleProcessLatest token
  = ([ESetLoading true; ESetError VNull; EFetch (process_latest_request token)]
       ++ match outcome (Api.processLatestEmail VITE_API_URL net token
                                                VUndefined) with
          | inr _ => trace loadApplications
          | inl err => [ESetError (VStr (message err))]
          end
       ++ [ESetLoading false], inr tt).
Proof.
  intros Htok. unfold Dashboard.handleProcessLatest, Api.processLatestEmail.
  rewrite Htok. simpl negb. cbv iota.
  rewrite loadApplications_eq, apiRequest_eq.
  destruct (outcome _); reflexivity.
Qed.

Lemma handleSaveEmail_eq token emailId :
  truthy token = true ->
  handleSaveEmail token emailId
  = ([ESetProcessingId emailId; EFetch (save_request token emailId)]
       ++ match outcome (Api.saveApplication VITE_API_URL net token emailId) with
          | inr _ => trace loadApplications
          | inl err => [ESetError (VStr (message err))]
          end
       ++ [ESetProcessingId VNull], inr tt).
Proof.
  intros Htok. unfold Dashboard.handleSaveEmail, Api.saveApplication.
  rewrite Htok. simpl negb. cbv iota.
  rewrite loadApplications_eq, apiRequest_eq.
  destruct (outcome _); reflexivity.
Qed.

(** The guard [if (!providerToken)] taken. *)
Lemma handleFetchEmails_guard token :
  truthy token = false ->
  handleFetchEmails token
  = ([ESetError (VStr Dashboard.no_token_message)], inr tt).
Proof. intros H. unfold Dashboard.handleFetchEmails. rewrite H. reflexivity. Qed.

Lemma handleProcessLatest_guard token :
  truthy token = false ->
  handleProcessLatest token
  = ([ESetError (VStr Dashboard.no_token_message)], inr tt).
Proof. intros H. unfold Dashboard.handleProcessLatest. rewrite H. reflexivity. Qed.

Lemma handleSaveEmail_guard token emailId :
  truthy token = false -> handleSaveEmail token emailId = ([], inr tt).
Proof. intros H. unfold Dashboard.handleSaveEmail. rewrite H. reflexivity. Qed.

(** *** Requests per handler *)

Lemma requests_loadApplications :
  requests (trace loadApplications) = [applications_request].
Proof.
  rewrite loadApplications_eq. unfold trace; simpl.
  destruct (outcome _); reflexivity.
Qed.

Lemma requests_handleFetchEmails token :
  truthy token = true ->
  requests (trace (handleFetchEmails token)) = [emails_request token].
Proof.
  intros H. rewrite (handleFetchEmails_eq _ H). unfold trace; simpl.
  destruct (outcome _); reflexivity.
Qed.

Lemma requests_handleProcessLatest token :
  truthy token = true ->
  requests (trace (handleProcessLatest token))
  = match outcome (Api.processLatestEmail VITE_API_URL net token VUndefined) with
    | inr _ => [process_latest_request token; applications_request]
    | inl _ => [process_latest_request token]
    end.
Proof.
  intros H. rewrite (handleProcessLatest_eq _ H). unfold trace at 1; simpl.
  destruct (outcome (Api.processLatestEmail _ _ _ _)); [reflexivity|].
  rewrite loadApplications_eq. unfold trace; simpl.
  destruct (outcome _); reflexivity.
Qed.

Lemma requests_handleSaveEmail token emailId :
  truthy token = true ->
  requests (trace (handleSaveEmail token emailId))
  = match outcome (Api.saveApplication VITE_API_URL net token emailId) with
    | inr _ => [save_request token emailId; applications_request]
    | inl _ => [save_request token emailId]
    end.
Proof.
  intros H. rewrite (handleSaveEmail_eq _ _ H). unfold trace at 1; simpl.
  destruct (outcome (Api.saveApplication _ _ _ _)); [reflexivity|].
  rewrite loadApplications_eq. unfold trace; simpl.
  destruct (outcome _); reflexivity.
Qed.

(** No handler run sends a request twice (so one answer of the backend per
    request describes a run in full). *)
Lemma append_inj_l (a b c : string) : a +:+ b = a +:+ c -> b = c.
Proof.
  induction a as [| ch a IH]; simpl; intros H; [exact H|].
  injection H as H. exact (IH H).
Qed.

Lemma process_latest_not_applications token :
  process_latest_request token <> applications_request.
Proof.
  intros H. apply (f_equal req_url) in H.
  unfold Dashboard.process_latest_request, Dashboard.applications_request,
    Api.request_of in H.
  cbn [req_url] in H. apply append_inj_l in H. discriminate H.
Qed.

Lemma save_not_applications token emailId :
  save_request token emailId <> applications_request.
Proof.
  intros H. apply (f_equal req_url) in H.
  unfold Dashboard.save_request, Dashboard.applications_request,
    Api.request_of in H.
  cbn [req_url] in H. apply append_inj_l in H. discriminate H.
Qed.

Lemma handler_requests_distinct token emailId :
  NoDup (requests (trace loadApplications))
  /\ NoDup (requests (trace (handleFetchEmails token)))
  /\ NoDup (requests (trace (handleProcessLatest token)))
  /\ NoDup (requests (trace (handleSaveEmail token emailId))).
Proof.
  rewrite requests_loadApplications.
  destruct (truthy token) eqn:Htok.
  - rewrite (requests_handleFetchEmails _ Htok),
      (requests_handleProcessLatest _ Htok),
      (requests_handleSaveEmail _ _ Htok).
    pose proof (process_latest_not_applications token) as Hp.
    pose proof (save_not_applications token emailId) as Hs.
    destruct (outcome (Api.processLatestEmail _ _ _ _));
      destruct (outcome (Api.saveApplication _ _ _ _));
      repeat split;
      repeat (apply NoDup_cons; split;
              [rewrite ?elem_of_cons, elem_of_nil; tauto|]);
      apply NoDup_nil_2.
  - rewrite (handleFetchEmails_guard _ Htok), (handleProcessLatest_guard _ Htok),
      (handleSaveEmail_guard _ _ Htok).
    repeat split; try apply NoDup_nil_2.
    apply NoDup_singleton.
Qed.

(** *** One request per [apiRequest], and nothing after a failure *)

(** C5.  An invocation of [apiRequest] performs exactly one [fetch]: its
    whole trace is that one request.  When the response is not ok, and
    when [fetch] itself rejects, the returned promise rejects at once;
    nothing is sent again.  No handler recovers from a failed call
    either: once a handler's call has failed, the handler sends no further
    request, and no handler run sends a request twice. *)
Theorem apiRequest_one_fetch_no_retry endpoint options token :
  trace (apiRequest endpoint options token)
  = [EFetch (request_of endpoint options token)]
  /\ (forall resp,
        net (request_of endpoint options token) = Resolves resp ->
        resp_ok resp = false ->
        exists e, outcome (apiRequest endpoint options token) = inl e)
  /\ (forall e,
        net (request_of endpoint options token) = Rejects e ->
        outcome (apiRequest endpoint options token) = inl e)
  /\ (forall providerToken emailId e,
        truthy providerToken = true ->
        (outcome (Api.fetchEmails VITE_API_URL net providerToken
                                  (VStr "in:inbox") (VNum 10)) = inl e ->
         requests (trace (handleFetchEmails providerToken))
         = [emails_request providerToken])
        /\ (outcome (Api.processLatestEmail VITE_API_URL net providerToken
                                            VUndefined) = inl e ->
            requests (trace (handleProcessLatest providerToken))
            = [process_latest_request providerToken])
        /\ (outcome (Api.saveApplication VITE_API_URL net providerToken
                                         emailId) = inl e ->
            requests (trace (handleSaveEmail providerToken emailId))
            = [save_request providerToken emailId]))
  /\ (forall providerToken emailId,
        NoDup (requests (trace loadApplications))
        /\ NoDup (requests (trace (handleFetchEmails providerToken)))
        /\ NoDup (requests (trace (handleProcessLatest providerToken)))
        /\ NoDup (requests (trace (handleSaveEmail providerToken emailId)))).
Proof.
  split; [apply apiRequest_trace|].
  split; [|split; [|split; [|apply handler_requests_distinct]]].
  - intros [ok body] Hnet Hok. simpl in Hok. subst ok.
    rewrite apiRequest_outcome, Hnet.
    destruct body as [j | e'].
    + destruct (get_prop j "detail"); eauto.
    + eauto.
  - intros e Hnet. rewrite apiRequest_outcome, Hnet. reflexivity.
  - intros tok emailId e Htok. repeat split; intros Hfail.
    + apply requests_handleFetchEmails, Htok.
    + rewrite (requests_handleProcessLatest _ Htok), Hfail. reflexivity.
    + rewrite (requests_handleSaveEmail _ _ Htok), Hfail. reflexivity.
Qed.

(** *** The token guard *)

(** C9.  With [providerToken] null, [handleFetchEmails] and
    [handleProcessLatest] do one thing, [setError] with the sign-in
    message: no request goes out and every other state cell keeps its
    value.  [handleSaveEmail] does nothing at all: no event, so no request
    and no state change, the error cell included. *)
Theorem null_token_guard (st : Dashboard.State) (emailId : JsVal) :
  handleFetchEmails VNull
  = ([ESetError (VStr "No Gmail token available. Please sign in again.")],
     inr tt)
  /\ handleProcessLatest VNull
     = ([ESetError (VStr "No Gmail token available. Please sign in again.")],
        inr tt)
  /\ handleSaveEmail VNull emailId = ([], inr tt)
  /\ requests (trace (handleFetchEmails VNull)) = []
  /\ requests (trace (handleProcessLatest VNull)) = []
  /\ requests (trace (handleSaveEmail VNull emailId)) = []
  /\ Dashboard.after st (handleFetchEmails VNull)
     = Dashboard.mkState
         (Dashboard.emails st) (Dashboard.applications st)
         (Dashboard.loading st)
         (VStr "No Gmail token available. Please sign in again.")
         (Dashboard.processingId st)
  /\ Dashboard.after st (handleProcessLatest VNull)
     = Dashboard.mkState
         (Dashboard.emails st) (Dashboard.applications st)
         (Dashboard.loading st)
         (VStr "No Gmail token available. Please sign in again.")
         (Dashboard.processingId st)
  /\ Dashboard.after st (handleSaveEmail VNull emailId) = st.
Proof. repeat split. Qed.

(** *** The loading indicators *)

Lemma replay_app st t1 t2 :
  Dashboard.replay st (t1 ++ t2) = Dashboard.replay (Dashboard.replay st t1) t2.
Proof. unfold Dashboard.replay. apply fold_left_app. Qed.

(** C10.  The handlers that set a loading indicator reset it in their
    [finally] block.  Past the token guard, the last event of
    [handleFetchEmails] and of [handleProcessLatest] is [setLoading(false)]
    and the last event of [handleSaveEmail] is [setProcessingId(null)],
    whatever the backend answered; on the guard path the indicator is not
    touched.  So a run that sets the indicator, or starts with it off (the
    Fetch and Process buttons are disabled while [loading] is on), ends
    with it off. *)
Theorem loading_reset_in_finally (st : Dashboard.State) token emailId :
  (truthy token = true ->
   last (trace (handleFetchEmails token)) = Some (ESetLoading false)
   /\ last (trace (handleProcessLatest token)) = Some (ESetLoading false)
   /\ last (trace (handleSaveEmail token emailId))
      = Some (ESetProcessingId VNull))
  /\ (truthy token = true \/ Dashboard.loading st = false ->
      Dashboard.loading (Dashboard.after st (handleFetchEmails token)) = false
      /\ Dashboard.loading (Dashboard.after st (handleProcessLatest token))
         = false)
  /\ (truthy token = true \/ Dashboard.processingId st = VNull ->
      Dashboard.processingId
        (Dashboard.after st (handleSaveEmail token emailId)) = VNull).
Proof.
  split; [|split].
  - intros Htok. repeat split.
    + rewrite (handleFetchEmails_eq _ Htok). reflexivity.
    + rewrite (handleProcessLatest_eq _ Htok). unfold trace at 1. cbn [fst].
      rewrite app_assoc. apply last_snoc.
    + rewrite (handleSaveEmail_eq _ _ Htok). unfold trace at 1. cbn [fst].
      rewrite app_assoc. apply last_snoc.
  - intros H. destruct (truthy token) eqn:Htok.
    + unfold Dashboard.after. split.
      * rewrite (handleFetchEmails_eq _ Htok). reflexivity.
      * rewrite (handleProcessLatest_eq _ Htok). unfold trace at 1. cbn [fst].
        rewrite app_assoc, replay_app. reflexivity.
    + destruct H as [H | H]; [discriminate|].
      unfold Dashboard.after.
      rewrite (handleFetchEmails_guard _ Htok), (handleProcessLatest_guard _ Htok).
      split; exact H.
  - intros H. destruct (truthy token) eqn:Htok.
    + unfold Dashboard.after.
      rewrite (handleSaveEmail_eq _ _ Htok). unfold trace at 1. cbn [fst].
      rewrite app_assoc, replay_app. reflexivity.
    + destruct H as [H | H]; [discriminate|].
      unfold Dashboard.after.
      rewrite (handleSaveEmail_guard _ _ Htok). exact H.
Qed.

(** *** Where a failure ends up *)

Lemma fetch_failure_sets_error st token e :
  truthy token = true ->
  outcome (Api.fetchEmails VITE_API_URL net token (VStr "in:inbox") (VNum 10))
  = inl e ->
  Dashboard.error (Dashboard.after st (handleFetchEmails token))
  = VStr (message e).
Proof.
  intros Htok He. unfold Dashboard.after.
  rewrite (handleFetchEmails_eq _ Htok), He. reflexivity.
Qed.

Lemma process_failure_sets_error st token e :
  truthy token = true ->
  outcome (Api.processLatestEmail VITE_API_URL net token VUndefined) = inl e ->
  Dashboard.error (Dashboard.after st (handleProcessLatest token))
  = VStr (message e).
Proof.
  intros Htok He. unfold Dashboard.after.
  rewrite (handleProcessLatest_eq _ Htok), He. reflexivity.
Qed.

Lemma save_failure_sets_error st token emailId e :
  truthy token = true ->
  outcome (Api.saveApplication VITE_API_URL net token emailId) = inl e ->
  Dashboard.error (Dashboard.after st (handleSaveEmail token emailId))
  = VStr (message e).
Proof.
  intros Htok He. unfold Dashboard.after.
  rewrite (handleSaveEmail_eq _ _ Htok), He. reflexivity.
Qed.

Lemma handler_outcomes token emailId :
  outcome loadApplications = inr tt
  /\ outcome (handleFetchEmails token) = inr tt
  /\ outcome (handleProcessLatest token) = inr tt
  /\ outcome (handleSaveEmail token emailId) = inr tt.
Proof.
  split; [rewrite loadApplications_eq; reflexivity|].
  destruct (truthy token) eqn:Htok.
  - rewrite (handleFetchEmails_eq _ Htok), (handleProcessLatest_eq _ Htok),
      (handleSaveEmail_eq _ _ Htok). repeat split.
  - rewrite (handleFetchEmails_guard _ Htok), (handleProcessLatest_guard _ Htok),
      (handleSaveEmail_guard _ _ Htok). repeat split.
Qed.

Lemma handleGoogleSignIn_eq auth :
  App.handleGoogleSignIn auth
  = (ESetSignInLoading true
       :: ESignInWithOAuth "google" App.gmail_scopes
       :: match outcome (App.signInWithGoogle auth) with
          | inl e => [EConsoleError "Sign in error:" e]
          | inr _ => []
          end
       ++ [ESetSignInLoading false], inr tt).
Proof.
  unfold App.handleGoogleSignIn, App.signInWithGoogle, App.signInWithOAuth.
  destruct auth as [e | data [e |]]; reflexivity.
Qed.

Lemma banner_of_text st m :
  Dashboard.error st = VStr m ->
  Dashboard.banner st = if String.eqb m "" then None else Some (VStr m).
Proof.
  intros H. unfold Dashboard.banner. rewrite H. cbn [truthy].
  destruct (String.eqb m ""); reflexivity.
Qed.

(** C1, as the code has it.  Every one of the five operations catches the
    failure of its call: the handler's own promise always resolves.  In
    [handleFetchEmails], [handleProcessLatest] and [handleSaveEmail] the
    failure of the call the handler makes itself ([fetchEmails],
    [processLatestEmail], [saveApplication]) is stored as [err.message] in
    the error state, and the banner shows that text when it is not empty
    (an empty message leaves no banner).  [loadApplications] and
    [handleGoogleSignIn] hand the caught error to [console.error] and set
    no error state, so their failure never reaches the banner. *)
Theorem failures_caught_and_reported st token emailId auth :
  (outcome loadApplications = inr tt
   /\ outcome (handleFetchEmails token) = inr tt
   /\ outcome (handleProcessLatest token) = inr tt
   /\ outcome (handleSaveEmail token emailId) = inr tt
   /\ outcome (App.handleGoogleSignIn auth) = inr tt)
  /\ (forall e,
        truthy token = true ->
        (outcome (Api.fetchEmails VITE_API_URL net token
                                  (VStr "in:inbox") (VNum 10)) = inl e ->
         Dashboard.error (Dashboard.after st (handleFetchEmails token))
         = VStr (message e)
         /\ Dashboard.banner (Dashboard.after st (handleFetchEmails token))
            = if String.eqb (message e) "" then None
              else Some (VStr (message e)))
        /\ (outcome (Api.processLatestEmail VITE_API_URL net token
                                            VUndefined) = inl e ->
            Dashboard.error (Dashboard.after st (handleProcessLatest token))
            = VStr (message e)
            /\ Dashboard.banner (Dashboard.after st (handleProcessLatest token))
               = if String.eqb (message e) "" then None
                 else Some (VStr (message e)))
        /\ (outcome (Api.saveApplication VITE_API_URL net token emailId)
            = inl e ->
            Dashboard.error
              (Dashboard.after st (handleSaveEmail token emailId))
            = VStr (message e)
            /\ Dashboard.banner
                 (Dashboard.after st (handleSaveEmail token emailId))
               = if String.eqb (message e) "" then None
                 else Some (VStr (message e))))
  /\ (forall e,
        outcome (Api.getApplications VITE_API_URL net) = inl e ->
        trace loadApplications
        = [EFetch applications_request;
           EConsoleError "Failed to load applications:" e]
        /\ Dashboard.after st loadApplications = st)
  /\ (forall e,
        outcome (App.signInWithGoogle auth) = inl e ->
        trace (App.handleGoogleSignIn auth)
        = [ESetSignInLoading true;
           ESignInWithOAuth "google" App.gmail_scopes;
           EConsoleError "Sign in error:" e;
           ESetSignInLoading false]).
Proof.
  split; [|split; [|split]].
  - destruct (handler_outcomes token emailId) as (H1 & H2 & H3 & H4).
    repeat split; try assumption.
    rewrite handleGoogleSignIn_eq. reflexivity.
  - intros e Htok. split; [|split]; intros He.
    + pose proof (fetch_failure_sets_error st token e Htok He) as H.
      split; [exact H | apply banner_of_text, H].
    + pose proof (process_failure_sets_error st token e Htok He) as H.
      split; [exact H | apply banner_of_text, H].
    + pose proof (save_failure_sets_error st token emailId e Htok He) as H.
      split; [exact H | apply banner_of_text, H].
  - intros e He. unfold Dashboard.after.
    rewrite loadApplications_eq, He. destruct st. split; reflexivity.
  - intros e He. rewrite handleGoogleSignIn_eq, He. reflexivity.
Qed.

(** C2, as the code has it.  Past the token guard, [handleFetchEmails]
    issues exactly one HTTP call; [handleProcessLatest] and
    [handleSaveEmail] issue their POST and, when it succeeded, a second
    call, the GET of the applications by [loadApplications].  The calls
    sit in a [try] whose [catch] branch stores the message of the failed
    call of the handler in the error state. *)
Theorem feature_handler_calls st token emailId :
  truthy token = true ->
  requests (trace (handleFetchEmails token)) = [emails_request token]
  /\ requests (trace (handleProcessLatest token))
     = match outcome (Api.processLatestEmail VITE_API_URL net token
                                             VUndefined) with
       | inr _ => [process_latest_request token; applications_request]
       | inl _ => [process_latest_request token]
       end
  /\ requests (trace (handleSaveEmail token emailId))
     = match outcome (Api.saveApplication VITE_API_URL net token emailId) with
       | inr _ => [save_request token emailId; applications_request]
       | inl _ => [save_request token emailId]
       end
  /\ (forall e,
        (outcome (Api.fetchEmails VITE_API_URL net token
                                  (VStr "in:inbox") (VNum 10)) = inl e ->
         Dashboard.error (Dashboard.after st (handleFetchEmails token))
         = VStr (message e))
        /\ (outcome (Api.processLatestEmail VITE_API_URL net token
                                            VUndefined) = inl e ->
            Dashboard.error (Dashboard.after st (handleProcessLatest token))
            = VStr (message e))
        /\ (outcome (Api.saveApplication VITE_API_URL net token emailId)
            = inl e ->
            Dashboard.error
              (Dashboard.after st (handleSaveEmail token emailId))
            = VStr (message e))).
Proof.
  intros Htok. split; [|split; [|split]].
  - apply requests_handleFetchEmails, Htok.
  - apply requests_handleProcessLatest, Htok.
  - apply requests_handleSaveEmail, Htok.
  - intros e. repeat split; intros He.
    + apply fetch_failure_sets_error; assumption.
    + apply process_failure_sets_error; assumption.
    + apply save_failure_sets_error; assumption.
Qed.

(** *** The requests of the handlers *)

Lemma handler_requests_listed token emailId r :
  r ∈ requests (trace loadApplications)
      ++ requests (trace (handleFetchEmails token))
      ++ requests (trace (handleProcessLatest token))
      ++ requests (trace (handleSaveEmail token emailId)) ->
  r ∈ [emails_request token; applications_request;
       process_latest_request token; save_request token emailId].
Proof.
  rewrite requests_loadApplications.
  destruct (truthy token) eqn:Htok.
  - rewrite (requests_handleFetchEmails _ Htok),
      (requests_handleProcessLatest _ Htok),
      (requests_handleSaveEmail _ _ Htok).
    destruct (outcome (Api.processLatestEmail _ _ _ _));
      destruct (outcome (Api.saveApplication _ _ _ _)); simpl;
      rewrite !elem_of_cons, elem_of_nil; tauto.
  - rewrite (handleFetchEmails_guard _ Htok), (handleProcessLatest_guard _ Htok),
      (handleSaveEmail_guard _ _ Htok). simpl.
    rewrite !elem_of_cons, elem_of_nil; tauto.
Qed.

(** *** Fetching the emails *)

(** C4, as the code has it.  When [handleFetchEmails] runs with a truthy
    [providerToken] (neither null nor the empty string), it first sets
    loading to true and clears the error, then sends its request, and
    while the request is in flight the component shows loading.
    Afterwards either the emails state holds [result || []] (the response,
    or the empty list for a falsy response) and the error is null, or the
    error state holds the message of the failure and the emails state is
    as before.  In both outcomes loading is false at the end. *)
Theorem fetch_emails_spinner_then_list_or_error st token :
  truthy token = true ->
  (exists rest,
      trace (handleFetchEmails token)
      = ESetLoading true :: ESetError VNull
          :: EFetch (emails_request token) :: rest)
  /\ Dashboard.loading (Dashboard.in_flight st (handleFetchEmails token)) = true
  /\ Dashboard.error (Dashboard.in_flight st (handleFetchEmails token)) = VNull
  /\ match outcome (Api.fetchEmails VITE_API_URL net token
                                    (VStr "in:inbox") (VNum 10)) with
     | inr result =>
         Dashboard.emails (Dashboard.after st (handleFetchEmails token))
         = js_or result (VArr [])
         /\ Dashboard.error (Dashboard.after st (handleFetchEmails token))
            = VNull
     | inl err =>
         Dashboard.error (Dashboard.after st (handleFetchEmails token))
         = VStr (message err)
         /\ Dashboard.emails (Dashboard.after st (handleFetchEmails token))
            = Dashboard.emails st
     end
  /\ Dashboard.loading (Dashboard.after st (handleFetchEmails token)) = false.
Proof.
  intros Htok. unfold Dashboard.after, Dashboard.in_flight.
  rewrite (handleFetchEmails_eq _ Htok). unfold trace; cbn [fst].
  split; [eexists; reflexivity|].
  destruct (outcome _); repeat split.
Qed.

(** *** The emails state *)

Lemma emails_kept_by_loadApplications st :
  Dashboard.emails (Dashboard.replay st (trace loadApplications))
  = Dashboard.emails st.
Proof.
  rewrite loadApplications_eq. unfold trace; simpl.
  destruct (outcome _); reflexivity.
Qed.

Lemma render_email_fields pid email row :
  Dashboard.render_email pid email = inr row ->
  exists subject,
    get_prop email "subject" = inr subject
    /\ Dashboard.row_title row = js_or subject (VStr "No Subject")
    /\ get_prop email "id" = inr (Dashboard.row_key row)
    /\ get_prop email "sender" = inr (Dashboard.row_sender row)
    /\ get_prop email "date" = inr (Dashboard.row_date row).
Proof.
  unfold Dashboard.render_email.
  destruct (get_prop email "id") as [e | id]; [discriminate|].
  destruct (get_prop email "subject") as [e | subject]; [discriminate|].
  destruct (get_prop email "sender") as [e | sender]; [discriminate|].
  destruct (get_prop email "date") as [e | date]; [discriminate|].
  intros H. injection H as <-. exists subject. repeat split.
Qed.

(** C6, as the code has it.  The response of the email fetch is stored
    whole ([result || []]: an array response is the emails state as it
    came), and no handler writes the emails state otherwise:
    [loadApplications], [handleProcessLatest] and [handleSaveEmail] leave
    it as it was, and so does [handleFetchEmails] on a failure or on the
    guard path.  A row renders the identifier, the sender and the date of
    its email as they are, and the subject as [email.subject || 'No
    Subject']: verbatim when it is truthy, as the text "No Subject"
    otherwise. *)
Theorem emails_stored_whole_and_kept st token emailId pid email row :
  (truthy token = true ->
   forall result,
     outcome (Api.fetchEmails VITE_API_URL net token (VStr "in:inbox") (VNum 10))
     = inr result ->
     Dashboard.emails (Dashboard.after st (handleFetchEmails token))
     = js_or result (VArr [])
     /\ (truthy result = true ->
         Dashboard.emails (Dashboard.after st (handleFetchEmails token))
         = result))
  /\ ((truthy token = false
       \/ exists e, outcome (Api.fetchEmails VITE_API_URL net token
                                             (VStr "in:inbox") (VNum 10))
                    = inl e) ->
      Dashboard.emails (Dashboard.after st (handleFetchEmails token))
      = Dashboard.emails st)
  /\ Dashboard.emails (Dashboard.after st loadApplications)
     = Dashboard.emails st
  /\ Dashboard.emails (Dashboard.after st (handleProcessLatest token))
     = Dashboard.emails st
  /\ Dashboard.emails (Dashboard.after st (handleSaveEmail token emailId))
     = Dashboard.emails st
  /\ (Dashboard.render_email pid email = inr row ->
      get_prop email "id" = inr (Dashboard.row_key row)
      /\ get_prop email "sender" = inr (Dashboard.row_sender row)
      /\ get_prop email "date" = inr (Dashboard.row_date row)
      /\ exists subject,
           get_prop email "subject" = inr subject
           /\ Dashboard.row_title row = js_or subject (VStr "No Subject")
           /\ (truthy subject = true -> Dashboard.row_title row = subject)).
Proof.
  unfold Dashboard.after.
  split; [|split; [|split; [|split; [|split]]]].
  - intros Htok result Hres.
    rewrite (handleFetchEmails_eq _ Htok), Hres. split; [reflexivity|].
    intros Ht. unfold js_or. rewrite Ht. reflexivity.
  - intros [Htok | [e He]].
    + rewrite (handleFetchEmails_guard _ Htok). reflexivity.
    + destruct (truthy token) eqn:Htok.
      * rewrite (handleFetchEmails_eq _ Htok), He. reflexivity.
      * rewrite (handleFetchEmails_guard _ Htok). reflexivity.
  - apply emails_kept_by_loadApplications.
  - destruct (truthy token) eqn:Htok.
    + rewrite (handleProcessLatest_eq _ Htok). unfold trace at 1; cbn [fst].
      destruct (outcome (Api.processLatestEmail _ _ _ _)); [reflexivity|].
      rewrite app_assoc, !replay_app.
      match goal with
      | |- Dashboard.emails (Dashboard.replay ?s [_]) = _ =>
          change (Dashboard.emails s = Dashboard.emails st)
      end.
      rewrite emails_kept_by_loadApplications. reflexivity.
    + rewrite (handleProcessLatest_guard _ Htok). reflexivity.
  - destruct (truthy token) eqn:Htok.
    + rewrite (handleSaveEmail_eq _ _ Htok). unfold trace at 1; cbn [fst].
      destruct (outcome (Api.saveApplication _ _ _ _)); [reflexivity|].
      rewrite app_assoc, !replay_app.
      match goal with
      | |- Dashboard.emails (Dashboard.replay ?s [_]) = _ =>
          change (Dashboard.emails s = Dashboard.emails st)
      end.
      rewrite emails_kept_by_loadApplications. reflexivity.
    + rewrite (handleSaveEmail_guard _ _ Htok). reflexivity.
  - intros Hrow.
    destruct (render_email_fields _ _ _ Hrow) as (subject & Hs & Ht & Hid & Hse & Hd).
    repeat split; try assumption.
    exists subject. repeat split; try assumption.
    intros Htr. rewrite Ht. unfold js_or. rewrite Htr. reflexivity.
Qed.

(** *** The buttons *)

Lemma replay_keeps_loading st t :
  Forall (fun ev => forall b, ev <> ESetLoading b) t ->
  Dashboard.loading (Dashboard.replay st t) = Dashboard.loading st.
Proof.
  intros H. revert st. induction H as [| ev t Hev _ IH]; intros st; [reflexivity|].
  change (Dashboard.replay st (ev :: t))
    with (Dashboard.replay (Dashboard.apply_event st ev) t).
  rewrite IH. destruct ev; try reflexivity. exfalso. apply (Hev b). reflexivity.
Qed.

Lemma replay_keeps_processingId st t :
  Forall (fun ev => forall v, ev <> ESetProcessingId v) t ->
  Dashboard.processingId (Dashboard.replay st t) = Dashboard.processingId st.
Proof.
  intros H. revert st. induction H as [| ev t Hev _ IH]; intros st; [reflexivity|].
  change (Dashboard.replay st (ev :: t))
    with (Dashboard.replay (Dashboard.apply_event st ev) t).
  rewrite IH. destruct ev; try reflexivity. exfalso. apply (Hev v). reflexivity.
Qed.

(** The events of the list in the goal are not the setter excluded. *)
Ltac no_such_event :=
  repeat (apply List.Forall_cons; [intros ?; discriminate|]);
  apply List.Forall_nil.

Lemma no_loading_event_in_save_or_load token emailId :
  Forall (fun ev => forall b, ev <> ESetLoading b)
         (trace (handleSaveEmail token emailId))
  /\ Forall (fun ev => forall b, ev <> ESetLoading b) (trace loadApplications)
  /\ Forall (fun ev => forall v, ev <> ESetProcessingId v)
            (trace loadApplications).
Proof.
  rewrite loadApplications_eq.
  assert (Hload : forall x : Exn + JsVal,
             Forall (fun ev => forall b, ev <> ESetLoading b)
                    [EFetch applications_request;
                     match x with
                     | inr apps => ESetApplications apps
                     | inl err => EConsoleError "Failed to load applications:" err
                     end]
             /\ Forall (fun ev => forall v, ev <> ESetProcessingId v)
                       [EFetch applications_request;
                        match x with
                        | inr apps => ESetApplications apps
                        | inl err =>
                            EConsoleError "Failed to load applications:" err
                        end]).
  { intros [e | apps]; split; no_such_event. }
  split; [|exact (Hload _)].
  destruct (truthy token) eqn:Htok.
  - rewrite (handleSaveEmail_eq _ _ Htok), loadApplications_eq.
    unfold trace; cbn [fst].
    destruct (outcome (Api.saveApplication _ _ _ _));
      [|destruct (outcome (Api.getApplications _ _))];
      cbn [app]; no_such_event.
  - rewrite (handleSaveEmail_guard _ _ Htok). apply List.Forall_nil.
Qed.

Lemma no_processingId_event_in_loading_handlers token :
  Forall (fun ev => forall v, ev <> ESetProcessingId v)
         (trace (handleFetchEmails token))
  /\ Forall (fun ev => forall v, ev <> ESetProcessingId v)
            (trace (handleProcessLatest token)).
Proof.
  destruct (truthy token) eqn:Htok.
  - rewrite (handleFetchEmails_eq _ Htok), (handleProcessLatest_eq _ Htok),
      loadApplications_eq.
    unfold trace; cbn [fst]. split.
    + destruct (outcome (Api.fetchEmails _ _ _ _ _)); no_such_event.
    + destruct (outcome (Api.processLatestEmail _ _ _ _));
        [|destruct (outcome (Api.getApplications _ _))];
        cbn [app]; no_such_event.
  - rewrite (handleFetchEmails_guard _ Htok), (handleProcessLatest_guard _ Htok).
    split; no_such_event.
Qed.

(** C7, as the code has it.  The Dashboard keeps one boolean [loading]
    cell, shared by the Fetch Emails and the Process Latest buttons: both
    are disabled and both spin exactly when it is on, so whenever a request
    of [handleFetchEmails] or of [handleProcessLatest] is out, both buttons
    are disabled.  The Refresh button has no flag and is never disabled.
    The save buttons of the email rows share one [processingId] cell: while
    the request of [handleSaveEmail] for the email with id [x] is out, the
    save button of the email with id [y] (ids being strings) is disabled
    exactly when [y] is [x].  No run of [handleSaveEmail] or of
    [loadApplications] ever calls [setLoading], and no run of
    [loadApplications], [handleFetchEmails] or [handleProcessLatest] ever
    calls [setProcessingId]: those cells are, throughout and after such a
    run, what they were before. *)
Theorem loading_flag_shared st token emailId (x y : string) :
  (Dashboard.fetch_button st
   = Dashboard.mkButton (Dashboard.loading st) (Dashboard.loading st)
   /\ Dashboard.process_button st = Dashboard.fetch_button st
   /\ Dashboard.refresh_button st = Dashboard.mkButton false false)
  /\ (truthy token = true ->
      (Dashboard.disabled
         (Dashboard.fetch_button
            (Dashboard.in_flight st (handleFetchEmails token))) = true
       /\ Dashboard.disabled
            (Dashboard.process_button
               (Dashboard.in_flight st (handleFetchEmails token))) = true
       /\ Dashboard.processingId
            (Dashboard.in_flight st (handleFetchEmails token))
          = Dashboard.processingId st)
      /\ (Dashboard.disabled
            (Dashboard.fetch_button
               (Dashboard.in_flight st (handleProcessLatest token))) = true
          /\ Dashboard.disabled
               (Dashboard.process_button
                  (Dashboard.in_flight st (handleProcessLatest token))) = true
          /\ Dashboard.processingId
               (Dashboard.in_flight st (handleProcessLatest token))
             = Dashboard.processingId st)
      /\ (Dashboard.loading
            (Dashboard.in_flight st (handleSaveEmail token emailId))
          = Dashboard.loading st
          /\ Dashboard.processingId
               (Dashboard.in_flight st (handleSaveEmail token emailId))
             = emailId))
  /\ Dashboard.in_flight st loadApplications = st
  /\ (truthy token = true ->
      Forall (fun s => Dashboard.disabled (Dashboard.fetch_button s) = true
                       /\ Dashboard.disabled (Dashboard.process_button s) = true)
             (states_at_fetches st (trace (handleFetchEmails token)))
      /\ Forall (fun s => Dashboard.disabled (Dashboard.fetch_button s) = true
                          /\ Dashboard.disabled (Dashboard.process_button s) = true)
                (states_at_fetches st (trace (handleProcessLatest token)))
      /\ Forall (fun s => Dashboard.disabled (Dashboard.save_button s (VStr y)) = true
                          <-> y = x)
                (states_at_fetches st (trace (handleSaveEmail token (VStr x)))))
  /\ (Forall (fun ev => forall b, ev <> ESetLoading b)
             (trace (handleSaveEmail token emailId))
      /\ Forall (fun ev => forall b, ev <> ESetLoading b) (trace loadApplications)
      /\ Forall (fun ev => forall v, ev <> ESetProcessingId v)
                (trace loadApplications)
      /\ Forall (fun ev => forall v, ev <> ESetProcessingId v)
                (trace (handleFetchEmails token))
      /\ Forall (fun ev => forall v, ev <> ESetProcessingId v)
                (trace (handleProcessLatest token)))
  /\ (Dashboard.loading (Dashboard.after st (handleSaveEmail token emailId))
      = Dashboard.loading st
      /\ Dashboard.loading (Dashboard.after st loadApplications)
         = Dashboard.loading st
      /\ Dashboard.processingId (Dashboard.after st loadApplications)
         = Dashboard.processingId st
      /\ Dashboard.processingId (Dashboard.after st (handleFetchEmails token))
         = Dashboard.processingId st
      /\ Dashboard.processingId (Dashboard.after st (handleProcessLatest token))
         = Dashboard.processingId st).
Proof.
  destruct (no_loading_event_in_save_or_load token emailId) as (Hs & Hl & Hlp).
  destruct (no_processingId_event_in_loading_handlers token) as (Hf & Hp).
  split; [repeat split|].
  split.
  { intros Htok. unfold Dashboard.in_flight.
    rewrite (handleFetchEmails_eq _ Htok), (handleProcessLatest_eq _ Htok),
      (handleSaveEmail_eq _ _ Htok).
    repeat split. }
  split.
  { unfold Dashboard.in_flight. rewrite loadApplications_eq. reflexivity. }
  split.
  { intros Htok.
    rewrite (handleFetchEmails_eq _ Htok), (handleProcessLatest_eq _ Htok),
      (handleSaveEmail_eq _ _ Htok), loadApplications_eq.
    unfold trace; cbn [fst].
    split; [|split].
    - destruct (outcome (Api.fetchEmails _ _ _ _ _)); cbn;
        repeat (apply List.Forall_cons; [split; reflexivity|]);
        apply List.Forall_nil.
    - destruct (outcome (Api.processLatestEmail _ _ _ _));
        [|destruct (outcome (Api.getApplications _ _))]; cbn;
        repeat (apply List.Forall_cons; [split; reflexivity|]);
        apply List.Forall_nil.
    - assert (Hiff : strict_eq (VStr x) (VStr y) = true <-> y = x).
      { cbn. destruct (String.eqb_spec x y) as [-> | Hne]; split; congruence. }
      destruct (outcome (Api.saveApplication _ _ _ _));
        [|destruct (outcome (Api.getApplications _ _))]; cbn;
        repeat (apply List.Forall_cons; [exact Hiff|]);
        apply List.Forall_nil. }
  split.
  { repeat split; assumption. }
  unfold Dashboard.after.
  rewrite (replay_keeps_loading _ _ Hs), (replay_keeps_loading _ _ Hl),
    (replay_keeps_processingId _ _ Hlp), (replay_keeps_processingId _ _ Hf),
    (replay_keeps_processingId _ _ Hp).
  repeat split.
Qed.

(** *** The Authorization header *)

Lemma truthy_default_null token :
  truthy (default_arg VNull token) = truthy token.
Proof. destruct token; reflexivity. Qed.

Lemma authorization_lookup endpoint options token :
  default ∅ (opt_headers (default no_options options)) !! "Authorization"
  = None ->
  req_headers (request_of endpoint options token) !! "Authorization"
  = if truthy token then Some ("Bearer " +:+ js_to_string token) else None.
Proof.
  intros Hnone. unfold Api.request_of, Api.request_headers. cbn [req_headers].
  rewrite truthy_default_null.
  destruct (truthy token) eqn:Htok.
  - rewrite lookup_insert_eq. destruct token; try discriminate; reflexivity.
  - rewrite lookup_union, Hnone, lookup_singleton_ne by discriminate.
    reflexivity.
Qed.

(** C8, as the code has it.  [apiRequest] attaches [Authorization: Bearer
    <token>] if and only if the token argument is truthy ([if (token)]): a
    null, undefined or empty-string token gets no header (its callers pass
    no [Authorization] in [options.headers]).  [getApplications] always
    sends its request without the header; [fetchEmails], [fetchEmail],
    [saveApplication] and [processLatestEmail] forward the caller's token
    as Bearer whenever it is truthy, and send no header otherwise. *)
Theorem authorization_iff_truthy_token token :
  (forall endpoint options,
      default ∅ (opt_headers (default no_options options)) !! "Authorization"
      = None ->
      req_headers (request_of endpoint options token) !! "Authorization"
      = if truthy token then Some ("Bearer " +:+ js_to_string token) else None)
  /\ (trace (Api.getApplications VITE_API_URL net)
      = [EFetch applications_request]
      /\ req_headers applications_request !! "Authorization" = None)
  /\ (forall query maxResults emailId,
        let bearer :=
          if truthy token then Some ("Bearer " +:+ js_to_string token)
          else None in
        (exists r,
            trace (Api.fetchEmails VITE_API_URL net token query maxResults)
            = [EFetch r]
            /\ req_headers r !! "Authorization" = bearer)
        /\ (exists r,
               trace (Api.fetchEmail VITE_API_URL net token emailId)
               = [EFetch r]
               /\ req_headers r !! "Authorization" = bearer)
        /\ (exists r,
               trace (Api.saveApplication VITE_API_URL net token emailId)
               = [EFetch r]
               /\ req_headers r !! "Authorization" = bearer)
        /\ (exists r,
               trace (Api.processLatestEmail VITE_API_URL net token query)
               = [EFetch r]
               /\ req_headers r !! "Authorization" = bearer)).
Proof.
  split; [intros; apply authorization_lookup; assumption|].
  split.
  - split; [apply apiRequest_trace|].
    apply (authorization_lookup Api.applications_endpoint None VUndefined).
    reflexivity.
  - intros query maxResults emailId bearer.
    repeat split; eexists; (split; [apply apiRequest_trace|]);
      apply authorization_lookup; reflexivity.
Qed.

End Shapes.

(** ** The theorems at concrete inputs *)

Lemma apiRequest_one_fetch_no_retry_witness :
  let quota := backend_error "Quota exceeded" in
  (exists e,
      outcome (Api.apiRequest VUndefined quota "/api/applications" None VUndefined)
      = inl e)
  /\ outcome (Api.apiRequest VUndefined backend_down "/api/applications" None
                             VUndefined)
     = inl (mkExn "Failed to fetch")
  /\ requests (trace (Dashboard.handleFetchEmails VUndefined quota sample_token))
     = [Dashboard.emails_request VUndefined sample_token]
  /\ requests (trace (Dashboard.handleProcessLatest VUndefined quota sample_token))
     = [Dashboard.process_latest_request VUndefined sample_token]
  /\ requests (trace (Dashboard.handleSaveEmail VUndefined quota sample_token
                                                (VStr "18c2f")))
     = [Dashboard.save_request VUndefined sample_token (VStr "18c2f")].
Proof.
  intros quota.
  destruct (apiRequest_one_fetch_no_retry VUndefined quota
              "/api/applications" None VUndefined) as (_ & Hnok & _ & Hh & _).
  destruct (apiRequest_one_fetch_no_retry VUndefined backend_down
              "/api/applications" None VUndefined) as (_ & _ & Hrej & _).
  destruct (Hh sample_token (VStr "18c2f") (mkExn "Quota exceeded") eq_refl)
    as (Hf & Hp & Hs).
  split; [|split; [|split; [|split]]].
  - apply (Hnok (mkResponse false (Parsed (VObj [("detail", VStr "Quota exceeded")]))));
      reflexivity.
  - apply Hrej. reflexivity.
  - apply Hf. reflexivity.
  - apply Hp. reflexivity.
  - apply Hs. reflexivity.
Defined.

Lemma loading_reset_in_finally_witness :
  truthy sample_token = true
  /\ last (trace (Dashboard.handleFetchEmails VUndefined backend_down sample_token))
     = Some (ESetLoading false)
  /\ Dashboard.loading
       (Dashboard.after inbox_state
          (Dashboard.handleFetchEmails VUndefined backend_down sample_token))
     = false
  /\ Dashboard.loading
       (Dashboard.after inbox_state
          (Dashboard.handleProcessLatest VUndefined backend_down sample_token))
     = false
  /\ Dashboard.processingId
       (Dashboard.after inbox_state
          (Dashboard.handleSaveEmail VUndefined backend_down sample_token
                                     (VStr "18c2f")))
     = VNull.
Proof.
  destruct (loading_reset_in_finally VUndefined backend_down inbox_state
              sample_token (VStr "18c2f")) as (Hlast & Hload & Hpid).
  split; [reflexivity|].
  split; [apply (Hlast eq_refl)|].
  split; [apply (Hload (or_introl eq_refl))|].
  split; [apply (Hload (or_introl eq_refl))|].
  apply (Hpid (or_introl eq_refl)).
Defined.

Lemma failures_caught_and_reported_witness :
  let quota := backend_error "Quota exceeded" in
  let closed := AuthRejects (mkExn "Popup closed") in
  truthy sample_token = true
  /\ Dashboard.error
       (Dashboard.after inbox_state
          (Dashboard.handleFetchEmails VUndefined quota sample_token))
     = VStr "Quota exceeded"
  /\ Dashboard.banner
       (Dashboard.after inbox_state
          (Dashboard.handleFetchEmails VUndefined quota sample_token))
     = Some (VStr "Quota exceeded")
  /\ Dashboard.error
       (Dashboard.after inbox_state
          (Dashboard.handleProcessLatest VUndefined quota sample_token))
     = VStr "Quota exceeded"
  /\ Dashboard.error
       (Dashboard.after inbox_state
          (Dashboard.handleSaveEmail VUndefined quota sample_token (VStr "18c2f")))
     = VStr "Quota exceeded"
  /\ Dashboard.after inbox_state (Dashboard.loadApplications VUndefined quota)
     = inbox_state
  /\ trace (App.handleGoogleSignIn closed)
     = [ESetSignInLoading true;
        ESignInWithOAuth "google" App.gmail_scopes;
        EConsoleError "Sign in error:" (mkExn "Popup closed");
        ESetSignInLoading false].
Proof.
  intros quota closed.
  destruct (failures_caught_and_reported VUndefined quota inbox_state
              sample_token (VStr "18c2f") closed) as (_ & Hfeat & Hload & Hsign).
  destruct (Hfeat (mkExn "Quota exceeded") eq_refl) as (Hf & Hp & Hs).
  split; [reflexivity|].
  split; [apply (Hf eq_refl)|].
  split; [apply (Hf eq_refl)|].
  split; [apply (Hp eq_refl)|].
  split; [apply (Hs eq_refl)|].
  split; [apply (Hload (mkExn "Quota exceeded")); reflexivity|].
  apply Hsign. reflexivity.
Defined.

Lemma feature_handler_calls_witness :
  let served := backend_ok (VArr []) in
  truthy sample_token = true
  /\ requests (trace (Dashboard.handleFetchEmails VUndefined served sample_token))
     = [Dashboard.emails_request VUndefined sample_token]
  /\ requests (trace (Dashboard.handleProcessLatest VUndefined served sample_token))
     = [Dashboard.process_latest_request VUndefined sample_token;
        Dashboard.applications_request VUndefined]
  /\ requests (trace (Dashboard.handleSaveEmail VUndefined served sample_token
                                                (VStr "18c2f")))
     = [Dashboard.save_request VUndefined sample_token (VStr "18c2f");
        Dashboard.applications_request VUndefined]
  /\ Dashboard.error
       (Dashboard.after inbox_state
          (Dashboard.handleSaveEmail VUndefined backend_down sample_token
                                     (VStr "18c2f")))
     = VStr "Failed to fetch".
Proof.
  intros served.
  destruct (feature_handler_calls VUndefined served inbox_state sample_token
              (VStr "18c2f") eq_refl) as (Hf & Hp & Hs & _).
  destruct (feature_handler_calls VUndefined backend_down inbox_state sample_token
              (VStr "18c2f") eq_refl) as (_ & _ & _ & Herr).
  destruct (Herr (mkExn "Failed to fetch")) as (_ & _ & Hsave).
  split; [reflexivity|].
  split; [exact Hf|].
  split; [exact Hp|].
  split; [exact Hs|].
  apply Hsave. reflexivity.
Defined.

Lemma fetch_emails_spinner_then_list_or_error_witness :
  let served := backend_ok (VArr [untitled_email]) in
  let run := Dashboard.handleFetchEmails VUndefined served sample_token in
  truthy sample_token = true
  /\ Dashboard.loading (Dashboard.in_flight Dashboard.initial run) = true
  /\ Dashboard.emails (Dashboard.after Dashboard.initial run)
     = VArr [untitled_email]
  /\ Dashboard.error (Dashboard.after Dashboard.initial run) = VNull
  /\ Dashboard.loading (Dashboard.after Dashboard.initial run) = false.
Proof.
  intros served run.
  destruct (fetch_emails_spinner_then_list_or_error VUndefined served
              Dashboard.initial sample_token eq_refl)
    as (_ & Hspin & _ & Hout & Hdone).
  split; [reflexivity|].
  split; [exact Hspin|].
  split; [apply Hout|].
  split; [apply Hout|exact Hdone].
Defined.

Lemma emails_stored_whole_and_kept_witness :
  let served := backend_ok (VArr [untitled_email]) in
  truthy sample_token = true
  /\ Dashboard.emails
       (Dashboard.after Dashboard.initial
          (Dashboard.handleFetchEmails VUndefined served sample_token))
     = VArr [untitled_email]
  /\ Dashboard.emails
       (Dashboard.after inbox_state
          (Dashboard.handleFetchEmails VUndefined backend_down sample_token))
     = VArr [untitled_email]
  /\ (exists row,
         Dashboard.render_email VNull untitled_email = inr row
         /\ get_prop untitled_email "sender" = inr (Dashboard.row_sender row)
         /\ get_prop untitled_email "date" = inr (Dashboard.row_date row)).
Proof.
  intros served.
  set (row := Dashboard.mkRow (VStr "18c2f") (VStr "No Subject")
                (VStr "jobs@example.com") (VStr "Mon, 1 Jan 2026")
                (Dashboard.mkButton false false)).
  destruct (emails_stored_whole_and_kept VUndefined served Dashboard.initial
              sample_token (VStr "18c2f") VNull untitled_email row)
    as (Hstore & _ & _ & _ & _ & Hrender).
  destruct (emails_stored_whole_and_kept VUndefined backend_down inbox_state
              sample_token (VStr "18c2f") VNull untitled_email row)
    as (_ & Hfail & _).
  destruct (Hstore eq_refl (VArr [untitled_email]) eq_refl) as (_ & Hsame).
  destruct (Hrender eq_refl) as (_ & Hsender & Hdate & _).
  split; [reflexivity|].
  split; [apply Hsame; reflexivity|].
  split; [apply Hfail; right; exists (mkExn "Failed to fetch"); reflexivity|].
  exists row. split; [reflexivity|]. split; assumption.
Defined.

Lemma loading_flag_shared_witness :
  let run := Dashboard.handleProcessLatest VUndefined backend_down sample_token in
  truthy sample_token = true
  /\ Dashboard.disabled
       (Dashboard.fetch_button (Dashboard.in_flight Dashboard.initial run)) = true
  /\ Dashboard.disabled
       (Dashboard.process_button (Dashboard.in_flight Dashboard.initial run))
     = true
  /\ Forall (fun s => Dashboard.disabled
                         (Dashboard.save_button s (VStr "18c2f")) = true
                       <-> "18c2f" = "18c2f")
            (states_at_fetches Dashboard.initial
               (trace (Dashboard.handleSaveEmail VUndefined backend_down
                                                 sample_token (VStr "18c2f")))).
Proof.
  intros run.
  destruct (loading_flag_shared VUndefined backend_down Dashboard.initial
              sample_token (VStr "18c2f") "18c2f" "18c2f")
    as (_ & Hflight & _ & Hout & _).
  destruct (Hflight eq_refl) as (_ & (Hf & Hp & _) & _).
  destruct (Hout eq_refl) as (_ & _ & Hsave).
  split; [reflexivity|]. split; [exact Hf|]. split; [exact Hp | exact Hsave].
Defined.

Lemma authorization_iff_truthy_token_witness :
  default ∅ (opt_headers (default no_options (Some post_options)))
    !! "Authorization" = None
  /\ req_headers (Api.request_of VUndefined "/api/applications/save/18c2f"
                                 (Some post_options) sample_token)
       !! "Authorization"
     = Some "Bearer ya29.a0AfH6SM".
Proof.
  destruct (authorization_iff_truthy_token VUndefined backend_down sample_token)
    as (Hany & _).
  split; [reflexivity|].
  apply (Hany "/api/applications/save/18c2f" (Some post_options)). reflexivity.
Defined.

(** ** Where the code departs from the stated claims *)

(** C1: [loadApplications] and [handleGoogleSignIn] catch the failure of
    their call but keep it out of the UI: with the backend down, the error
    state is still null after [loadApplications] and no banner shows; a
    rejected sign-in sets nothing but the sign-in spinner.  And a failure
    that is stored need not show: an error answer whose [detail] is an empty
    list gives the empty message, and no banner. *)
Lemma load_failure_only_logged :
  outcome (Api.getApplications VUndefined backend_down)
  = inl (mkExn "Failed to fetch")
  /\ trace (Dashboard.loadApplications VUndefined backend_down)
     = [EFetch (Dashboard.applications_request VUndefined);
        EConsoleError "Failed to load applications:" (mkExn "Failed to fetch")]
  /\ Dashboard.error
       (Dashboard.after Dashboard.initial
          (Dashboard.loadApplications VUndefined backend_down)) = VNull
  /\ Dashboard.error
       (Dashboard.after Dashboard.initial
          (Dashboard.loadApplications VUndefined backend_down))
     <> VStr "Failed to fetch"
  /\ Dashboard.banner
       (Dashboard.after Dashboard.initial
          (Dashboard.loadApplications VUndefined backend_down)) = None
  /\ outcome (App.signInWithGoogle (AuthRejects (mkExn "Popup closed")))
     = inl (mkExn "Popup closed")
  /\ trace (App.handleGoogleSignIn (AuthRejects (mkExn "Popup closed")))
     = [ESetSignInLoading true;
        ESignInWithOAuth "google" App.gmail_scopes;
        EConsoleError "Sign in error:" (mkExn "Popup closed");
        ESetSignInLoading false]
  /\ outcome (Api.fetchEmails VUndefined backend_error_no_text sample_token
                             (VStr "in:inbox") (VNum 10))
     = inl (mkExn "")
  /\ Dashboard.error
       (Dashboard.after Dashboard.initial
          (Dashboard.handleFetchEmails VUndefined backend_error_no_text
                                       sample_token))
     = VStr ""
  /\ Dashboard.banner
       (Dashboard.after Dashboard.initial
          (Dashboard.handleFetchEmails VUndefined backend_error_no_text
                                       sample_token))
     = None.
Proof. repeat split. discriminate. Qed.

(** C2: with the backend answering, [handleProcessLatest] and
    [handleSaveEmail] each issue two HTTP calls, not one; with a null token
    a handler issues none. *)
Lemma process_latest_issues_two_calls :
  requests (trace (Dashboard.handleProcessLatest VUndefined (backend_ok (VArr []))
                                                 sample_token))
  = [Dashboard.process_latest_request VUndefined sample_token;
     Dashboard.applications_request VUndefined]
  /\ length (requests (trace (Dashboard.handleProcessLatest
                                VUndefined (backend_ok (VArr [])) sample_token)))
     = 2
  /\ length (requests (trace (Dashboard.handleSaveEmail
                                VUndefined (backend_ok (VArr [])) sample_token
                                (VStr "18c2f")))) = 2
  /\ length (requests (trace (Dashboard.handleFetchEmails
                                VUndefined (backend_ok (VArr [])) VNull))) = 0.
Proof. repeat split. Qed.

(** C4: a non-null token need not pass the guard, and the emails state need
    not hold the response.  With the empty string as token the handler sets
    no loading flag and only reports the missing token; with the response
    [null] the emails state becomes the empty list. *)
Lemma fetch_emails_empty_token_null_response :
  VStr "" <> VNull
  /\ trace (Dashboard.handleFetchEmails VUndefined (backend_ok (VArr [])) (VStr ""))
     = [ESetError (VStr "No Gmail token available. Please sign in again.")]
  /\ outcome (Api.fetchEmails VUndefined (backend_ok VNull) sample_token
                             (VStr "in:inbox") (VNum 10)) = inr VNull
  /\ Dashboard.emails
       (Dashboard.after inbox_state
          (Dashboard.handleFetchEmails VUndefined (backend_ok VNull) sample_token))
     = VArr []
  /\ Dashboard.emails
       (Dashboard.after inbox_state
          (Dashboard.handleFetchEmails VUndefined (backend_ok VNull) sample_token))
     <> VNull.
Proof. repeat split; discriminate. Qed.

(** C6: an email whose subject is the empty string is listed under the
    title "No Subject": the subject is not rendered verbatim. *)
Lemma empty_subject_shown_as_no_subject :
  Dashboard.emails
    (Dashboard.after Dashboard.initial
       (Dashboard.handleFetchEmails VUndefined
          (backend_ok (VArr [untitled_email])) sample_token))
  = VArr [untitled_email]
  /\ get_prop untitled_email "subject" = inr (VStr "")
  /\ exists row,
      Dashboard.render_email VNull untitled_email = inr row
      /\ Dashboard.row_title row = VStr "No Subject"
      /\ Dashboard.row_title row <> VStr "".
Proof.
  split; [reflexivity|]. split; [reflexivity|].
  eexists. split; [reflexivity|]. split; [reflexivity|discriminate].
Qed.

(** C7: while the request of the Fetch Emails button is in flight, the
    Process Latest button is disabled and spins too. *)
Lemma fetch_disables_process_button :
  Dashboard.disabled (Dashboard.process_button Dashboard.initial) = false
  /\ Dashboard.disabled
       (Dashboard.process_button
          (Dashboard.in_flight Dashboard.initial
             (Dashboard.handleFetchEmails VUndefined (backend_ok (VArr []))
                                          sample_token)))
     = true
  /\ Dashboard.spinning
       (Dashboard.process_button
          (Dashboard.in_flight Dashboard.initial
             (Dashboard.handleFetchEmails VUndefined (backend_ok (VArr []))
                                          sample_token)))
     = true.
Proof. repeat split. Qed.

(** C8: the empty string is a non-null token, and a request made with it
    carries no Authorization header. *)
Lemma empty_token_sends_no_authorization :
  VStr "" <> VNull
  /\ trace (Api.fetchEmail VUndefined backend_down (VStr "") (VStr "18c2f"))
     = [EFetch (Api.request_of VUndefined "/api/emails/18c2f" (Some no_options)
                               (VStr ""))]
  /\ req_headers (Api.request_of VUndefined "/api/emails/18c2f" (Some no_options)
                                 (VStr ""))
       !! "Authorization" = None.
Proof. repeat split. discriminate. Qed.

(** ** Further properties of the client *)

Section MoreApi.

Variable VITE_API_URL : JsVal.
Variable net : Request -> FetchOutcome.

Abbreviation apiRequest := (Api.apiRequest VITE_API_URL net).
Abbreviation request_of := (Api.request_of VITE_API_URL).
Abbreviation emails_request := (Dashboard.emails_request VITE_API_URL).
Abbreviation handleFetchEmails := (Dashboard.handleFetchEmails VITE_API_URL net).

(** X1.  The message of the [Error] that [apiRequest] throws for a response
    that is not ok: "Unknown error" when the body is not JSON; the [detail]
    of the body when that is a non-empty string; "API request failed" when
    the body is an object (or another non-null value) whose [detail] is
    missing or falsy. *)
Theorem apiRequest_error_message endpoint options token resp :
  net (request_of endpoint options token) = Resolves resp ->
  resp_ok resp = false ->
  (forall e, resp_body resp = Malformed e ->
             outcome (apiRequest endpoint options token)
             = inl (mkExn "Unknown error"))
  /\ (forall fields d,
         resp_body resp = Parsed (VObj fields) ->
         obj_get fields "detail" = VStr d -> d <> "" ->
         outcome (apiRequest endpoint options token) = inl (mkExn d))
  /\ (forall j detail,
         resp_body resp = Parsed j ->
         get_prop j "detail" = inr detail -> truthy detail = false ->
         outcome (apiRequest endpoint options token)
         = inl (mkExn "API request failed")).
Proof.
  intros Hnet Hok. destruct resp as [ok body]. simpl in Hok. subst ok.
  rewrite apiRequest_outcome, Hnet. cbn [resp_body].
  split; [|split].
  - intros e ->. reflexivity.
  - intros fields d -> Hd Hne. cbn [get_prop]. rewrite Hd.
    unfold js_or. cbn [truthy].
    destruct (String.eqb_spec d ""); [contradiction | reflexivity].
  - intros j detail -> Hd Hfalsy. rewrite Hd. unfold js_or. rewrite Hfalsy.
    reflexivity.
Qed.

(** X2.  After a run of [handleFetchEmails] (truthy token) whose call
    failed, whatever the failure, the error state is the message of the
    error [fetchEmails] rejected with, the emails state is what it was, and
    the banner shows that message unless it is empty.  That message is: the
    message of the rejection when [fetch] rejects; the parser's message when
    a status-200 body is not JSON; "Unknown error" for an error status with
    a body that is not JSON; the [detail] of an error body when it is a
    non-empty string; "API request failed" when the error body has no
    [detail] or a falsy one. *)
Theorem fetch_emails_failure_text st token :
  truthy token = true ->
  (forall e,
      outcome (Api.fetchEmails VITE_API_URL net token (VStr "in:inbox") (VNum 10))
      = inl e ->
      Dashboard.error (Dashboard.after st (handleFetchEmails token))
      = VStr (message e)
      /\ Dashboard.emails (Dashboard.after st (handleFetchEmails token))
         = Dashboard.emails st
      /\ Dashboard.banner (Dashboard.after st (handleFetchEmails token))
         = if String.eqb (message e) "" then None else Some (VStr (message e)))
  /\ (forall e, net (emails_request token) = Rejects e ->
                Dashboard.error (Dashboard.after st (handleFetchEmails token))
                = VStr (message e))
  /\ (forall e, net (emails_request token)
               = Resolves (mkResponse true (Malformed e)) ->
               Dashboard.error (Dashboard.after st (handleFetchEmails token))
               = VStr (message e))
  /\ (forall e, net (emails_request token)
               = Resolves (mkResponse false (Malformed e)) ->
               Dashboard.error (Dashboard.after st (handleFetchEmails token))
               = VStr "Unknown error")
  /\ (forall fields d,
         net (emails_request token)
         = Resolves (mkResponse false (Parsed (VObj fields))) ->
         obj_get fields "detail" = VStr d -> d <> "" ->
         Dashboard.error (Dashboard.after st (handleFetchEmails token)) = VStr d
         /\ Dashboard.banner (Dashboard.after st (handleFetchEmails token))
            = Some (VStr d))
  /\ (forall j detail,
         net (emails_request token)
         = Resolves (mkResponse false (Parsed j)) ->
         get_prop j "detail" = inr detail -> truthy detail = false ->
         Dashboard.error (Dashboard.after st (handleFetchEmails token))
         = VStr "API request failed").
Proof.
  intros Htok.
  assert (Hgen : forall e,
    outcome (Api.fetchEmails VITE_API_URL net token (VStr "in:inbox") (VNum 10))
    = inl e ->
    Dashboard.error (Dashboard.after st (handleFetchEmails token))
    = VStr (message e)
    /\ Dashboard.emails (Dashboard.after st (handleFetchEmails token))
       = Dashboard.emails st
    /\ Dashboard.banner (Dashboard.after st (handleFetchEmails token))
       = if String.eqb (message e) "" then None else Some (VStr (message e))).
  { intros e He.
    assert (Herr : Dashboard.error (Dashboard.after st (handleFetchEmails token))
                   = VStr (message e)).
    { unfold Dashboard.after. rewrite (handleFetchEmails_eq _ _ _ Htok), He.
      reflexivity. }
    split; [exact Herr|]. split; [|apply banner_of_text, Herr].
    unfold Dashboard.after. rewrite (handleFetchEmails_eq _ _ _ Htok), He.
    reflexivity. }
  assert (Hout :
    outcome (Api.fetchEmails VITE_API_URL net token (VStr "in:inbox") (VNum 10))
    = match net (emails_request token) with
      | Rejects e => inl e
      | Resolves (mkResponse true (Parsed j)) => inr j
      | Resolves (mkResponse true (Malformed e)) => inl e
      | Resolves (mkResponse false (Malformed _)) => inl (mkExn "Unknown error")
      | Resolves (mkResponse false (Parsed j)) =>
          match get_prop j "detail" with
          | inl e => inl e
          | inr detail =>
              inl (mkExn (js_to_string (js_or detail (VStr "API request failed"))))
          end
      end).
  { unfold Api.fetchEmails. apply apiRequest_outcome. }
  split; [exact Hgen|]. split; [|split; [|split; [|split]]].
  - intros e Hnet. apply (Hgen e). rewrite Hout, Hnet. reflexivity.
  - intros e Hnet. apply (Hgen e). rewrite Hout, Hnet. reflexivity.
  - intros e Hnet. apply (Hgen (mkExn "Unknown error")).
    rewrite Hout, Hnet. reflexivity.
  - intros fields d Hnet Hd Hne.
    assert (He : outcome (Api.fetchEmails VITE_API_URL net token
                                          (VStr "in:inbox") (VNum 10))
                 = inl (mkExn d)).
    { rewrite Hout, Hnet. cbn [get_prop]. rewrite Hd. unfold js_or. cbn [truthy].
      destruct (String.eqb_spec d ""); [contradiction | reflexivity]. }
    destruct (Hgen _ He) as (Herr & _ & Hbanner). split; [exact Herr|].
    rewrite Hbanner. cbn [message].
    destruct (String.eqb_spec d ""); [contradiction | reflexivity].
  - intros j detail Hnet Hd Hfalsy.
    apply (Hgen (mkExn "API request failed")).
    rewrite Hout, Hnet, Hd. unfold js_or. rewrite Hfalsy. reflexivity.
Qed.

(** X3.  The headers of a request, key by key: [Authorization] is the
    Bearer token whenever the token is truthy, also over an [Authorization]
    that [options.headers] brought; any other key is what [options.headers]
    has for it; and [Content-Type] falls back to [application/json] when
    [options.headers] does not set it. *)
Theorem request_headers_lookup endpoint options token (k : string) :
  req_headers (request_of endpoint (Some options) token) !! k
  = if truthy token && String.eqb k "Authorization"
    then Some ("Bearer " +:+ js_to_string token)
    else match default ∅ (opt_headers options) !! k with
         | Some v => Some v
         | None => if String.eqb k "Content-Type"
                   then Some "application/json" else None
         end.
Proof.
  unfold Api.request_of, Api.request_headers. cbn [req_headers default].
  rewrite truthy_default_null.
  assert (Hbase :
    (default ∅ (opt_headers options) ∪ {["Content-Type" := "application/json"]})
      !! k
    = match default ∅ (opt_headers options) !! k with
      | Some v => Some v
      | None => if String.eqb k "Content-Type"
                then Some "application/json" else None
      end).
  { rewrite lookup_union.
    destruct (default ∅ (opt_headers options) !! k) as [v |] eqn:Hk.
    - destruct ({["Content-Type" := "application/json"]} !! k); reflexivity.
    - destruct (String.eqb_spec k "Content-Type") as [-> | Hne].
      + rewrite lookup_singleton_eq. reflexivity.
      + rewrite lookup_singleton_ne by congruence. reflexivity. }
  destruct (truthy token) eqn:Htok; cbn [andb].
  - destruct (String.eqb_spec k "Authorization") as [-> | Hne].
    + rewrite lookup_insert_eq.
      destruct token; try discriminate; reflexivity.
    + rewrite lookup_insert_ne by congruence. exact Hbase.
  - exact Hbase.
Qed.

End MoreApi.

(** *** The query string *)

(** [String x a +:+ b] one step on ([String.append] does not unfold under
    [simpl]). *)
Ltac step_append :=
  repeat match goal with
         | |- context [String ?x ?a +:+ ?b] =>
             change (String x a +:+ b) with (String x (a +:+ b))
         | H : context [String ?x ?a +:+ ?b] |- _ =>
             change (String x a +:+ b) with (String x (a +:+ b)) in H
         end.

Lemma form_urlencode_cons c r :
  form_urlencode (String c r) = encode_byte c +:+ form_urlencode r.
Proof.
  unfold encode_byte. cbn [form_urlencode].
  destruct (form_unreserved c); [reflexivity|].
  destruct (N_of_ascii c =? 32)%N; reflexivity.
Qed.

Lemma encode_byte_safe a : string_forall url_safe (encode_byte a) = true.
Proof. destruct a as [[] [] [] [] [] [] [] []]; reflexivity. Qed.

Lemma string_forall_app p a b :
  string_forall p (a +:+ b) = string_forall p a && string_forall p b.
Proof.
  induction a as [| c a IH]; [reflexivity|].
  simpl. rewrite IH. apply andb_assoc.
Qed.

Lemma form_urlencode_safe s : string_forall url_safe (form_urlencode s) = true.
Proof.
  induction s as [| c r IH]; [reflexivity|].
  rewrite form_urlencode_cons, string_forall_app, encode_byte_safe, IH.
  reflexivity.
Qed.

Lemma count_byte_app c a b :
  count_byte c (a +:+ b) = count_byte c a + count_byte c b.
Proof.
  induction a as [| x a IH]; [reflexivity|].
  simpl. rewrite IH. apply Nat.add_assoc.
Qed.

Lemma count_byte_forall p c s :
  string_forall p s = true -> p c = false -> count_byte c s = 0.
Proof.
  intros Hs Hc. induction s as [| a r IH]; [reflexivity|].
  cbn [string_forall] in Hs. apply andb_true_iff in Hs as [Ha Hr].
  cbn [count_byte]. rewrite (IH Hr).
  destruct (Ascii.eqb_spec a c) as [-> | _]; [congruence | reflexivity].
Qed.

Lemma count_byte_encoded c s :
  url_safe c = false -> count_byte c (form_urlencode s) = 0.
Proof. apply count_byte_forall, form_urlencode_safe. Qed.

(** X4.  A name or value never leaks a delimiter into the query string:
    [URLSearchParams] writes it with unreserved bytes, [+] and [%] only, so
    in the serialisation of [n] parameters the byte [&] occurs [n - 1]
    times, the byte [=] occurs [n] times, and no other byte outside those
    (no [?], [#], [/], space, quote, ...) occurs at all. *)
Theorem url_search_params_delimiters (kvs : list (string * JsVal)) :
  count_byte "&" (url_search_params kvs) = pred (length kvs)
  /\ count_byte "=" (url_search_params kvs) = length kvs
  /\ (forall c : ascii,
         url_safe c = false -> c <> "&"%char -> c <> "="%char ->
         count_byte c (url_search_params kvs) = 0).
Proof.
  assert (Hone : forall c k v,
             count_byte c (form_urlencode k +:+ "=" +:+ form_urlencode (js_to_string v))
             = count_byte c (form_urlencode k)
               + ((if Ascii.eqb "=" c then 1 else 0)
                  + count_byte c (form_urlencode (js_to_string v)))).
  { intros c k v. rewrite count_byte_app. reflexivity. }
  induction kvs as [| [k v] r IH].
  - repeat split.
  - destruct IH as (Hamp & Heq & Hother).
    cbn [url_search_params length].
    destruct r as [| kv r'].
    + split; [|split].
      * rewrite Hone, !count_byte_encoded by reflexivity. reflexivity.
      * rewrite Hone, !count_byte_encoded by reflexivity. reflexivity.
      * intros c Hc Hamp' Heq'.
        rewrite Hone, !count_byte_encoded by assumption.
        destruct (Ascii.eqb_spec "=" c); [congruence | reflexivity].
    + set (rest := url_search_params (kv :: r')) in *.
      change (String.append
                (form_urlencode k +:+ "=" +:+ form_urlencode (js_to_string v))
                ("&" +:+ rest))
        with ((form_urlencode k +:+ "=" +:+ form_urlencode (js_to_string v))
                +:+ String "&" rest).
      split; [|split].
      * rewrite count_byte_app, Hone, !count_byte_encoded by reflexivity.
        cbn [count_byte]. rewrite Hamp. reflexivity.
      * rewrite count_byte_app, Hone, !count_byte_encoded by reflexivity.
        cbn [count_byte]. rewrite Heq. reflexivity.
      * intros c Hc Hamp' Heq'.
        rewrite count_byte_app, Hone, !count_byte_encoded by assumption.
        cbn [count_byte]. rewrite (Hother c Hc Hamp' Heq').
        destruct (Ascii.eqb_spec "=" c); [congruence|].
        destruct (Ascii.eqb_spec "&" c); [congruence | reflexivity].
Qed.

Lemma url_search_params_delimiters_witness :
  url_safe "#" = false
  /\ count_byte "#" (url_search_params [("query", VStr "a&b=c #d")]) = 0
  /\ count_byte "&" (url_search_params [("query", VStr "a&b=c #d")]) = 0.
Proof.
  destruct (url_search_params_delimiters [("query", VStr "a&b=c #d")])
    as (Hamp & _ & Hother).
  split; [reflexivity|].
  split; [apply Hother; [reflexivity | discriminate | discriminate] | exact Hamp].
Defined.

(** *** Decoding gives the value back *)

Lemma decode_encode_byte a r :
  form_urldecode (encode_byte a +:+ r) = String a (form_urldecode r).
Proof. destruct a as [[] [] [] [] [] [] [] []]; reflexivity. Qed.

Lemma string_app_assoc (a b c : string) : (a +:+ b) +:+ c = a +:+ (b +:+ c).
Proof.
  induction a as [| x a IH]; [reflexivity|].
  step_append. f_equal. exact IH.
Qed.

Lemma form_urldecode_encode_app s r :
  form_urldecode (form_urlencode s +:+ r) = s +:+ form_urldecode r.
Proof.
  induction s as [| c s IH]; [reflexivity|].
  rewrite form_urlencode_cons, string_app_assoc, decode_encode_byte, IH.
  reflexivity.
Qed.

Lemma string_app_empty_r (a : string) : a +:+ "" = a.
Proof.
  induction a as [| x a IH]; [reflexivity|]. step_append. f_equal. exact IH.
Qed.

Lemma string_length_app (a b : string) :
  String.length (a +:+ b) = String.length a + String.length b.
Proof.
  induction a as [| x a IH]; [reflexivity|].
  step_append. cbn [String.length]. rewrite IH. reflexivity.
Qed.

Lemma append_inj_r (a b c : string) : a +:+ c = b +:+ c -> a = b.
Proof.
  revert b. induction a as [| x a IH]; intros [| y b] H.
  - reflexivity.
  - apply (f_equal String.length) in H.
    rewrite (string_length_app (String y b)) in H.
    change ("" +:+ c) with c in H. cbn [String.length] in H. lia.
  - apply (f_equal String.length) in H.
    rewrite (string_length_app (String x a)) in H.
    change ("" +:+ c) with c in H. cbn [String.length] in H. lia.
  - step_append. injection H as -> H. rewrite (IH _ H). reflexivity.
Qed.

(** X5.  For a text given by its UTF-8 bytes (the strings of this
    development; a JavaScript string with a lone surrogate has no UTF-8
    form, the serialiser replaces the surrogate, and such strings are not
    covered), the encoding loses nothing: decoding what [URLSearchParams]
    wrote gives the bytes back, so two different texts are never written
    alike, and on the two endpoints with a query different query texts give
    different endpoint strings. *)
Theorem form_urlencode_round_trip (s s1 s2 : string) (maxResults : JsVal) :
  form_urldecode (form_urlencode s) = s
  /\ (form_urlencode s1 = form_urlencode s2 -> s1 = s2)
  /\ (Api.emails_endpoint (VStr s1) maxResults
      = Api.emails_endpoint (VStr s2) maxResults -> s1 = s2)
  /\ (Api.process_latest_endpoint (VStr s1)
      = Api.process_latest_endpoint (VStr s2) -> s1 = s2).
Proof.
  assert (Hrt : forall s, form_urldecode (form_urlencode s) = s).
  { intros s0. rewrite <- (string_app_empty_r (form_urlencode s0)).
    rewrite form_urldecode_encode_app. apply string_app_empty_r. }
  assert (Hinj : forall a b, form_urlencode a = form_urlencode b -> a = b).
  { intros a b H. rewrite <- (Hrt a), <- (Hrt b), H. reflexivity. }
  split; [apply Hrt|]. split; [apply Hinj|]. split.
  - intros H. unfold Api.emails_endpoint in H.
    cbn [url_search_params default_arg js_to_string] in H.
    set (tail := "&" +:+ _) in H.
    change (("/api/emails?query=" +:+ (form_urlencode s1 +:+ tail))
            = ("/api/emails?query=" +:+ (form_urlencode s2 +:+ tail))) in H.
    apply append_inj_l, append_inj_r in H. apply Hinj, H.
  - intros H. unfold Api.process_latest_endpoint in H.
    cbn [url_search_params default_arg js_to_string] in H.
    change (("/api/applications/process-latest?query=" +:+ form_urlencode s1)
            = ("/api/applications/process-latest?query=" +:+ form_urlencode s2))
      in H.
    apply append_inj_l in H. apply Hinj, H.
Qed.

Lemma form_urlencode_round_trip_witness :
  Api.emails_endpoint (VStr "from:hr@acme.io") (VNum 10)
  = Api.emails_endpoint (VStr "from:hr@acme.io") (VNum 10)
  /\ form_urldecode (form_urlencode "from:hr@acme.io is:unread")
     = "from:hr@acme.io is:unread"
  /\ "from:hr@acme.io" = "from:hr@acme.io".
Proof.
  destruct (form_urlencode_round_trip "from:hr@acme.io is:unread"
              "from:hr@acme.io" "from:hr@acme.io" (VNum 10))
    as (Hrt & _ & Hemails & _).
  split; [reflexivity|]. split; [exact Hrt | apply Hemails; reflexivity].
Defined.

(** *** The session and the auth hook *)

Lemma truthy_nullish_or x :
  truthy (js_nullish x VNull) = truthy (js_or x VNull)
  /\ (truthy x = true -> js_nullish x VNull = x /\ js_or x VNull = x)
  /\ (truthy x = false -> js_or x VNull = VNull).
Proof.
  unfold js_or. destruct (truthy x) eqn:Hx.
  - repeat split; destruct x; try discriminate; try reflexivity; exact Hx.
  - repeat split; try discriminate. destruct x; try reflexivity; exact Hx.
Qed.

(** X6.  [getProviderToken] resolves with [null] or with a truthy token,
    never with an empty string or another falsy value: a token it delivers
    is non-null exactly when it is truthy (so exactly when the handlers of
    the Dashboard and [apiRequest] accept it), and then it is the
    [provider_token] of the session.  It rejects exactly when [getSession]
    does, with the same error. *)
Theorem getProviderToken_null_or_truthy (o : Supabase.SessionOutcome) :
  (forall token,
      Supabase.getProviderToken o = inr token ->
      (token <> VNull <-> truthy token = true)
      /\ exists session,
          Supabase.getSession o = inr session
          /\ (token <> VNull -> opt_chain session "provider_token" = token))
  /\ (forall e, Supabase.getSession o = inl e <-> Supabase.getProviderToken o = inl e).
Proof.
  unfold Supabase.getProviderToken.
  destruct (Supabase.getSession o) as [e | session]; split.
  - discriminate.
  - intros e'. split; intros H; exact H.
  - intros token H. injection H as <-.
    destruct (truthy_nullish_or (opt_chain session "provider_token"))
      as (_ & Htrue & Hfalse).
    destruct (truthy (opt_chain session "provider_token")) eqn:Ht.
    + destruct (Htrue eq_refl) as (_ & ->). split.
      * split; [intros _; exact Ht|].
        intros _ Heq. rewrite Heq in Ht. discriminate.
      * exists session. split; [reflexivity | intros _; reflexivity].
    + rewrite (Hfalse eq_refl). split.
      * split; [intros H; contradiction | discriminate].
      * exists session. split; [reflexivity | intros H; contradiction].
  - intros e. split; discriminate.
Qed.

Lemma getProviderToken_null_or_truthy_witness :
  Supabase.getProviderToken
    (Supabase.SessionResolves (VObj [("provider_token", VStr "")]) None)
  = inr VNull
  /\ (VNull <> VNull <-> truthy VNull = true)
  /\ Supabase.getProviderToken (Supabase.SessionRejects (mkExn "offline"))
     = inl (mkExn "offline").
Proof.
  destruct (getProviderToken_null_or_truthy
              (Supabase.SessionResolves (VObj [("provider_token", VStr "")]) None))
    as (Hok & _).
  destruct (getProviderToken_null_or_truthy
              (Supabase.SessionRejects (mkExn "offline"))) as (_ & Hrej).
  split; [reflexivity|].
  split; [apply (Hok VNull eq_refl) | apply Hrej; reflexivity].
Defined.

(** X7.  The spinner of the auth check always ends: after the initial
    [getSession] settled, either way, and after every auth-change event,
    [loading] is false.  When the initial [getSession] failed, the user and
    the token are left as they were and the error goes to the console. *)
Theorem auth_loading_always_ends (o : Supabase.SessionOutcome)
        (st : AppAuth.State) (event session : JsVal) :
  AppAuth.loading (AppAuth.replay st (AppAuth.on_initial_session o)) = false
  /\ AppAuth.loading (AppAuth.replay st (AppAuth.on_auth_change event session))
     = false
  /\ (forall e,
         Supabase.getSession o = inl e ->
         AppAuth.on_initial_session o
         = [AppAuth.AConsoleError "Error getting session:" e;
            AppAuth.ASetLoading false]
         /\ AppAuth.replay st (AppAuth.on_initial_session o)
            = AppAuth.mkState (AppAuth.user st) (AppAuth.providerToken st) false).
Proof.
  unfold AppAuth.on_initial_session.
  split; [|split].
  - destruct (Supabase.getSession o); reflexivity.
  - reflexivity.
  - intros e ->. split; reflexivity.
Qed.

Lemma auth_loading_always_ends_witness :
  AppAuth.replay AppAuth.initial
    (AppAuth.on_initial_session
       (Supabase.SessionResolves VNull (Some (mkExn "Invalid Refresh Token"))))
  = AppAuth.mkState VNull VNull false.
Proof.
  destruct (auth_loading_always_ends
              (Supabase.SessionResolves VNull (Some (mkExn "Invalid Refresh Token")))
              AppAuth.initial VNull VNull) as (_ & _ & Hfail).
  apply (Hfail (mkExn "Invalid Refresh Token") eq_refl).
Defined.

(** X8.  The session alone decides the auth state: what an auth-change
    event leaves behind does not depend on the state before nor on the kind
    of event, and the initial [getSession] and an auth-change event that
    carry the same session can arrive in either order, or only one of them,
    with the same result. *)
Theorem session_decides_auth_state (o : Supabase.SessionOutcome)
        (st st' : AppAuth.State) (event event' session : JsVal) :
  AppAuth.replay st (AppAuth.on_auth_change event session)
  = AppAuth.replay st' (AppAuth.on_auth_change event' session)
  /\ (Supabase.getSession o = inr session ->
      AppAuth.replay (AppAuth.replay st (AppAuth.on_initial_session o))
                     (AppAuth.on_auth_change event session)
      = AppAuth.replay (AppAuth.replay st (AppAuth.on_auth_change event session))
                       (AppAuth.on_initial_session o)
      /\ AppAuth.replay (AppAuth.replay st (AppAuth.on_initial_session o))
                        (AppAuth.on_auth_change event session)
         = AppAuth.replay st (AppAuth.on_initial_session o)).
Proof.
  split; [reflexivity|].
  intros Hs. unfold AppAuth.on_initial_session. rewrite Hs. split; reflexivity.
Qed.

Lemma session_decides_auth_state_witness :
  AppAuth.replay
    (AppAuth.replay AppAuth.initial
       (AppAuth.on_initial_session (Supabase.SessionResolves restored_session None)))
    (AppAuth.on_auth_change (VStr "INITIAL_SESSION") restored_session)
  = AppAuth.replay AppAuth.initial
      (AppAuth.on_initial_session (Supabase.SessionResolves restored_session None)).
Proof.
  destruct (session_decides_auth_state
              (Supabase.SessionResolves restored_session None)
              AppAuth.initial AppAuth.initial
              (VStr "INITIAL_SESSION") (VStr "INITIAL_SESSION") restored_session)
    as (_ & Horder).
  apply (Horder eq_refl).
Defined.



(** X10.  Signing out: [handleSignOut] itself changes nothing of the auth
    state, whether the provider's sign-out succeeded or failed (a failure is
    only logged), so the screen stays what it was; the Dashboard goes away
    when the provider reports the change: after an auth-change event with a
    null session, from any state, user and token are null and the landing
    page shows. *)
Theorem sign_out_through_auth_change (o : Supabase.SignOutOutcome)
        (st : AppAuth.State) (event : JsVal) (signInLoading : bool) :
  AppAuth.replay st (AppAuth.handleSignOut o) = st
  /\ (forall e, Supabase.signOut o = inl e ->
                AppAuth.handleSignOut o = [AppAuth.AConsoleError "Sign out error:" e])
  /\ AppAuth.replay st (AppAuth.on_auth_change event VNull)
     = AppAuth.mkState VNull VNull false
  /\ AppAuth.screen (AppAuth.replay st (AppAuth.on_auth_change event VNull))
                    signInLoading
     = AppAuth.ShowLanding signInLoading.
Proof.
  unfold AppAuth.handleSignOut.
  split; [|split; [|split]].
  - destruct (Supabase.signOut o); reflexivity.
  - intros e ->. reflexivity.
  - reflexivity.
  - reflexivity.
Qed.

Lemma sign_out_through_auth_change_witness :
  AppAuth.handleSignOut (Supabase.SignOutResolves (Some (mkExn "network")))
  = [AppAuth.AConsoleError "Sign out error:" (mkExn "network")].
Proof.
  destruct (sign_out_through_auth_change
              (Supabase.SignOutResolves (Some (mkExn "network")))
              AppAuth.initial (VStr "SIGNED_OUT") false) as (_ & Hlog & _).
  apply (Hlog (mkExn "network") eq_refl).
Defined.

(** *** From the session to the Dashboard *)

Section MoreDashboard.

Variable VITE_API_URL : JsVal.
Variable net : Request -> FetchOutcome.

Abbreviation applications_request := (Dashboard.applications_request VITE_API_URL).
Abbreviation loadApplications := (Dashboard.loadApplications VITE_API_URL net).
Abbreviation handleFetchEmails := (Dashboard.handleFetchEmails VITE_API_URL net).
Abbreviation handleProcessLatest := (Dashboard.handleProcessLatest VITE_API_URL net).
Abbreviation handleSaveEmail := (Dashboard.handleSaveEmail VITE_API_URL net).

Lemma handlers_agree_on_falsy t1 t2 emailId :
  truthy t1 = false -> truthy t2 = false ->
  handleFetchEmails t1 = handleFetchEmails t2
  /\ handleProcessLatest t1 = handleProcessLatest t2
  /\ handleSaveEmail t1 emailId = handleSaveEmail t2 emailId.
Proof.
  intros H1 H2.
  rewrite !(handleFetchEmails_guard _ _ _ H1), !(handleFetchEmails_guard _ _ _ H2),
    !(handleProcessLatest_guard _ _ _ H1), !(handleProcessLatest_guard _ _ _ H2),
    !(handleSaveEmail_guard _ _ _ _ H1), !(handleSaveEmail_guard _ _ _ _ H2).
  repeat split.
Qed.

(** X11.  The auth hook keeps the session's token with [?? null], while
    [getProviderToken] reduces it with [|| null]; for the Dashboard the two
    are the same token: its three handlers do exactly the same, event by
    event, with either (a token that is falsy but not null, the empty
    string, stops at the guard like null does). *)
Theorem hook_token_same_as_provider_token (x emailId : JsVal) :
  handleFetchEmails (js_nullish x VNull) = handleFetchEmails (js_or x VNull)
  /\ handleProcessLatest (js_nullish x VNull) = handleProcessLatest (js_or x VNull)
  /\ handleSaveEmail (js_nullish x VNull) emailId
     = handleSaveEmail (js_or x VNull) emailId.
Proof.
  destruct (truthy_nullish_or x) as (Heq & Htrue & Hfalse).
  destruct (truthy x) eqn:Hx.
  - destruct (Htrue eq_refl) as (-> & ->). repeat split.
  - apply handlers_agree_on_falsy.
    + rewrite Heq, (Hfalse eq_refl). reflexivity.
    + rewrite (Hfalse eq_refl). reflexivity.
Qed.

(** X12.  A signed-in session without a provider token (a restored session
    has none): the Dashboard is shown, Fetch Emails and Process Latest only
    report the missing token, saving does nothing, and none of the three
    sends a request; the saved applications still load, through a request
    that carries no [Authorization] header. *)
Theorem dashboard_without_provider_token (o : Supabase.SessionOutcome)
        (session emailId : JsVal) (st : Dashboard.State) :
  Supabase.getSession o = inr session ->
  truthy (opt_chain session "user") = true ->
  js_nullish (opt_chain session "provider_token") VNull = VNull ->
  exists user token,
    AppAuth.screen
      (AppAuth.replay AppAuth.initial (AppAuth.on_initial_session o)) false
    = AppAuth.ShowDashboard user token
    /\ trace (handleFetchEmails token)
       = [ESetError (VStr "No Gmail token available. Please sign in again.")]
    /\ trace (handleProcessLatest token)
       = [ESetError (VStr "No Gmail token available. Please sign in again.")]
    /\ trace (handleSaveEmail token emailId) = []
    /\ requests (trace loadApplications) = [applications_request]
    /\ req_headers applications_request !! "Authorization" = None
    /\ Dashboard.applications (Dashboard.after st loadApplications)
       = match outcome (Api.getApplications VITE_API_URL net) with
         | inr apps => apps
         | inl _ => Dashboard.applications st
         end.
Proof.
  intros Hs Hu Ht.
  exists (opt_chain session "user"), VNull.
  split; [|split; [|split; [|split; [|split; [|split]]]]].
  - unfold AppAuth.on_initial_session, AppAuth.screen. rewrite Hs. cbn.
    destruct (truthy_nullish_or (opt_chain session "user")) as (_ & Htrue & _).
    destruct (Htrue Hu) as (-> & _). rewrite Hu, Ht. reflexivity.
  - reflexivity.
  - reflexivity.
  - reflexivity.
  - apply requests_loadApplications.
  - apply (authorization_lookup VITE_API_URL Api.applications_endpoint None
                                VUndefined). reflexivity.
  - unfold Dashboard.after. rewrite loadApplications_eq. unfold trace; cbn.
    destruct (outcome _); reflexivity.
Qed.

End MoreDashboard.

Lemma dashboard_without_provider_token_witness :
  Supabase.getSession (Supabase.SessionResolves restored_session None)
  = inr restored_session
  /\ truthy (opt_chain restored_session "user") = true
  /\ js_nullish (opt_chain restored_session "provider_token") VNull = VNull
  /\ exists user token,
      AppAuth.screen
        (AppAuth.replay AppAuth.initial
           (AppAuth.on_initial_session
              (Supabase.SessionResolves restored_session None))) false
      = AppAuth.ShowDashboard user token
      /\ trace (Dashboard.handleFetchEmails VUndefined (backend_ok (VArr [])) token)
         = [ESetError (VStr "No Gmail token available. Please sign in again.")].
Proof.
  destruct (dashboard_without_provider_token VUndefined (backend_ok (VArr []))
              (Supabase.SessionResolves restored_session None)
              restored_session (VStr "18c2f") Dashboard.initial
              eq_refl eq_refl eq_refl)
    as (user & token & Hscreen & Hfetch & _).
  split; [reflexivity|]. split; [reflexivity|]. split; [reflexivity|].
  exists user, token. split; assumption.
Defined.

(** *** Signing in *)

(** X13.  [handleGoogleSignIn] turns the sign-in spinner on, then asks the
    provider for Google OAuth with the [gmail.readonly] scope, and turns the
    spinner off last, whatever the provider did: afterwards [signInLoading]
    is false from any start.  [signInWithGoogle] rejects with the
    provider's error also when the call itself resolved (with a non-null
    [error]); only then, or when the call rejected, is anything logged. *)
Theorem google_sign_in_spinner (auth : AuthOutcome) (signInLoading : bool) :
  (exists rest,
      trace (App.handleGoogleSignIn auth)
      = ESetSignInLoading true
          :: ESignInWithOAuth
               "google" "email https://www.googleapis.com/auth/gmail.readonly"
          :: rest ++ [ESetSignInLoading false]
      /\ (rest = [] <-> exists data, outcome (App.signInWithGoogle auth) = inr data))
  /\ fold_left App.apply_event (trace (App.handleGoogleSignIn auth)) signInLoading
     = false
  /\ (forall data e,
         auth = AuthResolves data (Some e) ->
         outcome (App.signInWithGoogle auth) = inl e)
  /\ (forall data,
         auth = AuthResolves data None ->
         outcome (App.signInWithGoogle auth) = inr data).
Proof.
  split; [|split; [|split]].
  - rewrite handleGoogleSignIn_eq. unfold trace; cbn [fst].
    eexists. split; [reflexivity|].
    destruct (outcome (App.signInWithGoogle auth)) as [e | data]; split.
    + discriminate.
    + intros [data H]. discriminate.
    + intros _. exists data. reflexivity.
    + reflexivity.
  - rewrite handleGoogleSignIn_eq. unfold trace; cbn [fst].
    destruct (outcome (App.signInWithGoogle auth)); reflexivity.
  - intros data e ->. reflexivity.
  - intros data ->. reflexivity.
Qed.

Lemma google_sign_in_spinner_witness :
  outcome (App.signInWithGoogle
             (AuthResolves VNull (Some (mkExn "Provider is not enabled"))))
  = inl (mkExn "Provider is not enabled")
  /\ outcome (App.signInWithGoogle
                (AuthResolves (VObj [("provider", VStr "google")]) None))
     = inr (VObj [("provider", VStr "google")]).
Proof.
  destruct (google_sign_in_spinner
              (AuthResolves VNull (Some (mkExn "Provider is not enabled"))) false)
    as (_ & _ & Herr & _).
  destruct (google_sign_in_spinner
              (AuthResolves (VObj [("provider", VStr "google")]) None) false)
    as (_ & _ & _ & Hok).
  split; [apply (Herr VNull (mkExn "Provider is not enabled") eq_refl)|].
  apply (Hok (VObj [("provider", VStr "google")]) eq_refl).
Defined.

(** *** The Dashboard over a whole visit *)

Section MoreRuns.

Variable VITE_API_URL : JsVal.
Variable net : Request -> FetchOutcome.

Abbreviation applications_request := (Dashboard.applications_request VITE_API_URL).
Abbreviation process_latest_request := (Dashboard.process_latest_request VITE_API_URL).
Abbreviation save_request := (Dashboard.save_request VITE_API_URL).
Abbreviation loadApplications := (Dashboard.loadApplications VITE_API_URL net).
Abbreviation handleFetchEmails := (Dashboard.handleFetchEmails VITE_API_URL net).
Abbreviation handleProcessLatest := (Dashboard.handleProcessLatest VITE_API_URL net).
Abbreviation handleSaveEmail := (Dashboard.handleSaveEmail VITE_API_URL net).

Lemma truthy_js_or_array result : truthy (js_or result (VArr [])) = true.
Proof. unfold js_or. destruct (truthy result) eqn:H; [exact H | reflexivity]. Qed.

Lemma settled_after_loadApplications st :
  Session.settled st -> Session.settled (Dashboard.after st loadApplications).
Proof.
  intros H. unfold Dashboard.after. rewrite loadApplications_eq.
  unfold trace; cbn [fst]. destruct (outcome _); exact H.
Qed.

Lemma settled_after_handleFetchEmails st token :
  Session.settled st -> Session.settled (Dashboard.after st (handleFetchEmails token)).
Proof.
  intros (Hl & Hp & He & Herr). unfold Dashboard.after.
  destruct (truthy token) eqn:Htok.
  - rewrite (handleFetchEmails_eq _ _ _ Htok). unfold trace; cbn [fst].
    destruct (outcome _) as [e | result]; repeat split; cbn; try assumption.
    + right. eexists. reflexivity.
    + apply truthy_js_or_array.
    + left. reflexivity.
  - rewrite (handleFetchEmails_guard _ _ _ Htok).
    repeat split; cbn; try assumption. right. eexists. reflexivity.
Qed.

Lemma settled_after_handleProcessLatest st token :
  Session.settled st ->
  Session.settled (Dashboard.after st (handleProcessLatest token)).
Proof.
  intros (Hl & Hp & He & Herr). unfold Dashboard.after.
  destruct (truthy token) eqn:Htok.
  - rewrite (handleProcessLatest_eq _ _ _ Htok), loadApplications_eq.
    unfold trace; cbn [fst].
    destruct (outcome (Api.processLatestEmail _ _ _ _)) as [e | j];
      [|destruct (outcome (Api.getApplications _ _))];
      repeat split; cbn; try assumption;
      first [left; reflexivity | right; eexists; reflexivity].
  - rewrite (handleProcessLatest_guard _ _ _ Htok).
    repeat split; cbn; try assumption. right. eexists. reflexivity.
Qed.

Lemma settled_after_handleSaveEmail st token emailId :
  Session.settled st ->
  Session.settled (Dashboard.after st (handleSaveEmail token emailId)).
Proof.
  intros (Hl & Hp & He & Herr). unfold Dashboard.after.
  destruct (truthy token) eqn:Htok.
  - rewrite (handleSaveEmail_eq _ _ _ _ Htok), loadApplications_eq.
    unfold trace; cbn [fst].
    destruct (outcome (Api.saveApplication _ _ _ _)) as [e | j];
      [|destruct (outcome (Api.getApplications _ _))];
      repeat split; cbn; try assumption.
    right. eexists. reflexivity.
  - rewrite (handleSaveEmail_guard _ _ _ _ Htok). repeat split; assumption.
Qed.

(** X15.  A retry dismisses the banner, a save does not.  After a run of
    [handleFetchEmails] or [handleProcessLatest] whose own call succeeded,
    no banner shows, whatever error was displayed before.  A run of
    [handleSaveEmail] whose call succeeded leaves the error, and so the
    banner, exactly as it was. *)
Theorem banner_cleared_by_retry_only st token emailId :
  truthy token = true ->
  (forall result,
      outcome (Api.fetchEmails VITE_API_URL net token (VStr "in:inbox") (VNum 10))
      = inr result ->
      Dashboard.banner (Dashboard.after st (handleFetchEmails token)) = None)
  /\ (forall j,
         outcome (Api.processLatestEmail VITE_API_URL net token VUndefined)
         = inr j ->
         Dashboard.banner (Dashboard.after st (handleProcessLatest token)) = None)
  /\ (forall j,
         outcome (Api.saveApplication VITE_API_URL net token emailId) = inr j ->
         Dashboard.error (Dashboard.after st (handleSaveEmail token emailId))
         = Dashboard.error st
         /\ Dashboard.banner (Dashboard.after st (handleSaveEmail token emailId))
            = Dashboard.banner st).
Proof.
  intros Htok. unfold Dashboard.after. split; [|split].
  - intros result Hr. rewrite (handleFetchEmails_eq _ _ _ Htok), Hr. reflexivity.
  - intros j Hj.
    rewrite (handleProcessLatest_eq _ _ _ Htok), Hj, loadApplications_eq.
    unfold trace; cbn [fst].
    destruct (outcome (Api.getApplications _ _)); reflexivity.
  - intros j Hj.
    rewrite (handleSaveEmail_eq _ _ _ _ Htok), Hj, loadApplications_eq.
    unfold trace; cbn [fst].
    destruct (outcome (Api.getApplications _ _)); split; reflexivity.
Qed.

(** X16.  When the POST of [handleProcessLatest] or of [handleSaveEmail]
    succeeded and the reload of the applications that follows fails, the
    user is shown nothing: the failure goes to the console, the error state
    is not set to it (no banner after Process Latest), and the list of
    applications stays as it was. *)
Theorem reload_failure_is_silent st token emailId j e :
  truthy token = true ->
  outcome (Api.getApplications VITE_API_URL net) = inl e ->
  (outcome (Api.processLatestEmail VITE_API_URL net token VUndefined) = inr j ->
   trace (handleProcessLatest token)
   = [ESetLoading true; ESetError VNull;
      EFetch (process_latest_request token);
      EFetch applications_request;
      EConsoleError "Failed to load applications:" e;
      ESetLoading false]
   /\ Dashboard.banner (Dashboard.after st (handleProcessLatest token)) = None
   /\ Dashboard.applications (Dashboard.after st (handleProcessLatest token))
      = Dashboard.applications st)
  /\ (outcome (Api.saveApplication VITE_API_URL net token emailId) = inr j ->
      trace (handleSaveEmail token emailId)
      = [ESetProcessingId emailId;
         EFetch (save_request token emailId);
         EFetch applications_request;
         EConsoleError "Failed to load applications:" e;
         ESetProcessingId VNull]
      /\ Dashboard.error (Dashboard.after st (handleSaveEmail token emailId))
         = Dashboard.error st
      /\ Dashboard.applications
           (Dashboard.after st (handleSaveEmail token emailId))
         = Dashboard.applications st).
Proof.
  intros Htok He. unfold Dashboard.after. split; intros Hj.
  - rewrite (handleProcessLatest_eq _ _ _ Htok), Hj, loadApplications_eq, He.
    repeat split.
  - rewrite (handleSaveEmail_eq _ _ _ _ Htok), Hj, loadApplications_eq, He.
    repeat split.
Qed.

(** X20.  While [handleSaveEmail] for the email with id [x] is waiting for
    the backend, the save button of the email with id [y] (ids being
    strings) is disabled exactly when [y] is [x], and the Fetch and Process
    buttons are as they were; once the run is over, every save button is
    enabled again. *)
Theorem save_button_busy_for_its_email st token (x y : string) :
  truthy token = true ->
  (Dashboard.disabled
     (Dashboard.save_button
        (Dashboard.in_flight st (handleSaveEmail token (VStr x))) (VStr y)) = true
   <-> y = x)
  /\ Dashboard.fetch_button (Dashboard.in_flight st (handleSaveEmail token (VStr x)))
     = Dashboard.fetch_button st
  /\ Dashboard.disabled
       (Dashboard.save_button
          (Dashboard.after st (handleSaveEmail token (VStr x))) (VStr y)) = false.
Proof.
  intros Htok. unfold Dashboard.in_flight, Dashboard.after.
  rewrite (handleSaveEmail_eq _ _ _ _ Htok). split; [|split].
  - cbn. destruct (String.eqb_spec x y) as [-> | Hne]; split; congruence.
  - reflexivity.
  - unfold trace; cbn [fst]. rewrite app_assoc, replay_app. reflexivity.
Qed.

End MoreRuns.

(** X14.  Over a whole visit the Dashboard comes to rest after every run:
    starting from the initial state, after any sequence of completed
    handler runs (any clicks, any tokens, any answers of the backend) the
    spinner is off, no save is marked in progress, the emails state is
    truthy (never null or undefined), and the error is null or a text. *)
Theorem dashboard_settled_after_runs (VITE_API_URL : JsVal)
        (rs : list Session.Run) :
  Session.settled (Session.run_all VITE_API_URL Dashboard.initial rs).
Proof.
  assert (Hstep : forall r st,
             Session.settled st ->
             Session.settled
               (Dashboard.after st (Session.run_handler VITE_API_URL r))).
  { intros [click token net'] st H. unfold Session.run_handler.
    cbn [Session.run_click Session.run_token Session.run_net].
    destruct click.
    - apply settled_after_handleFetchEmails, H.
    - apply settled_after_handleProcessLatest, H.
    - apply settled_after_loadApplications, H.
    - apply settled_after_handleSaveEmail, H. }
  assert (Hall : forall st, Session.settled st ->
                            Session.settled (Session.run_all VITE_API_URL st rs)).
  { induction rs as [| r rs' IH]; intros st H; [exact H|].
    apply IH, Hstep, H. }
  apply Hall. repeat split. left. reflexivity.
Qed.

Lemma banner_cleared_by_retry_only_witness :
  Dashboard.banner
    (Dashboard.after
       (Dashboard.mkState (VArr []) (VArr []) false (VStr "Quota exceeded") VNull)
       (Dashboard.handleFetchEmails VUndefined (backend_ok (VArr [])) sample_token))
  = None
  /\ Dashboard.banner
       (Dashboard.after
          (Dashboard.mkState (VArr []) (VArr []) false (VStr "Quota exceeded") VNull)
          (Dashboard.handleSaveEmail VUndefined (backend_ok (VArr [])) sample_token
                                     (VStr "18c2f")))
     = Some (VStr "Quota exceeded").
Proof.
  destruct (banner_cleared_by_retry_only VUndefined (backend_ok (VArr []))
              (Dashboard.mkState (VArr []) (VArr []) false
                                 (VStr "Quota exceeded") VNull)
              sample_token (VStr "18c2f") eq_refl) as (Hfetch & _ & Hsave).
  split; [apply (Hfetch (VArr []) eq_refl)|].
  destruct (Hsave (VArr []) eq_refl) as (_ & ->). reflexivity.
Defined.

Lemma reload_failure_is_silent_witness :
  truthy sample_token = true
  /\ outcome (Api.getApplications VUndefined backend_post_only)
     = inl (mkExn "Failed to fetch")
  /\ Dashboard.banner
       (Dashboard.after Dashboard.initial
          (Dashboard.handleProcessLatest VUndefined backend_post_only sample_token))
     = None
  /\ Dashboard.error
       (Dashboard.after Dashboard.initial
          (Dashboard.handleSaveEmail VUndefined backend_post_only sample_token
                                     (VStr "18c2f")))
     = VNull.
Proof.
  destruct (reload_failure_is_silent VUndefined backend_post_only Dashboard.initial
              sample_token (VStr "18c2f") (VObj [("status", VStr "saved")])
              (mkExn "Failed to fetch") eq_refl eq_refl) as (Hp & Hs).
  destruct (Hp eq_refl) as (_ & Hbanner & _).
  destruct (Hs eq_refl) as (_ & Herr & _).
  split; [reflexivity|]. split; [reflexivity|]. split; assumption.
Defined.

Lemma save_button_busy_for_its_email_witness :
  truthy sample_token = true
  /\ Dashboard.disabled
       (Dashboard.save_button
          (Dashboard.in_flight Dashboard.initial
             (Dashboard.handleSaveEmail VUndefined backend_down sample_token
                                        (VStr "18c2f")))
          (VStr "18c2f")) = true.
Proof.
  destruct (save_button_busy_for_its_email VUndefined backend_down
              Dashboard.initial sample_token "18c2f" "18c2f" eq_refl)
    as (Hbusy & _).
  split; [reflexivity | apply Hbusy; reflexivity].
Defined.

(** *** The lists *)

Lemma render_email_fails_iff pid email :
  (exists e, Dashboard.render_email pid email = inl e)
  <-> (email = VNull \/ email = VUndefined).
Proof.
  split.
  - intros [e H]. destruct email; try discriminate H; auto.
  - intros [-> | ->]; eexists; reflexivity.
Qed.

(** X17.  Evaluating the callback of [emails.map] over an array of emails
    gives the values of one row per email, in the order of the array: as
    many rows as there are emails, the row at each position built from the
    email at that position.  The callback throws (reading a property of
    null or undefined) exactly when some element of the array is null or
    undefined.  What React does with the values afterwards is not part of
    this statement. *)
Theorem render_emails_rows (pid : JsVal) (xs : list JsVal) :
  (forall rows,
      Dashboard.render_emails pid xs = inr rows ->
      length rows = length xs
      /\ forall i email,
          xs !! i = Some email ->
          exists row, rows !! i = Some row
                      /\ Dashboard.render_email pid email = inr row)
  /\ ((exists e, Dashboard.render_emails pid xs = inl e)
      <-> exists email, email ∈ xs /\ (email = VNull \/ email = VUndefined)).
Proof.
  induction xs as [| x xs IH].
  - split.
    + intros rows H. injection H as <-. split; [reflexivity|].
      intros i email Hi. rewrite lookup_nil in Hi. discriminate.
    + split.
      * intros [e H]. discriminate.
      * intros (email & Hin & _). apply elem_of_nil in Hin. contradiction.
  - destruct IH as (IHrows & IHfail). cbn [Dashboard.render_emails].
    destruct (Dashboard.render_email pid x) as [e | row] eqn:Hx.
    + split; [discriminate|]. split.
      * intros _. exists x. split; [apply list_elem_of_here|].
        apply (render_email_fails_iff pid). exists e. exact Hx.
      * intros _. exists e. reflexivity.
    + destruct (Dashboard.render_emails pid xs) as [e | rows'] eqn:Hxs.
      * split; [discriminate|]. split.
        -- intros _. destruct IHfail as (Hsome & _).
           destruct Hsome as (email & Hin & Hnull); [exists e; reflexivity|].
           exists email. split; [apply list_elem_of_further, Hin | exact Hnull].
        -- intros _. exists e. reflexivity.
      * split.
        -- intros rows H. injection H as <-.
           destruct (IHrows rows' eq_refl) as (Hlen & Hat).
           split; [cbn; rewrite Hlen; reflexivity|].
           intros [| i] email Hi.
           ++ injection Hi as <-. exists row. split; [reflexivity | exact Hx].
           ++ apply Hat. exact Hi.
        -- split; [intros [e H]; discriminate|].
           intros (email & Hin & Hnull).
           apply elem_of_cons in Hin as [-> | Hin].
           ++ apply (render_email_fails_iff pid) in Hnull as [e He].
              rewrite Hx in He. discriminate.
           ++ destruct IHfail as (_ & Hfail).
              destruct Hfail as [e He]; [exists email; auto | discriminate].
Qed.

Lemma render_emails_rows_witness :
  exists rows,
    Dashboard.render_emails VNull [untitled_email; untitled_email] = inr rows
    /\ length rows = 2.
Proof.
  destruct (render_emails_rows VNull [untitled_email; untitled_email]) as (Hrows & _).
  eexists. split; [reflexivity|].
  eapply Hrows. reflexivity.
Defined.

Lemma truthy_js_or_fallback a b : truthy b = true -> truthy (js_or a b) = true.
Proof. intros Hb. unfold js_or. destruct (truthy a) eqn:Ha; assumption. Qed.

Lemma js_or_text (x : JsVal) (d : string) :
  d <> "" ->
  match x with
  | VUndefined | VNull | VStr _ => exists s, js_or x (VStr d) = VStr s /\ s <> ""
  | _ => True
  end.
Proof.
  intros Hd. destruct x as [| | b | n | s | xs | fields]; try exact I.
  - exists d. split; [reflexivity | exact Hd].
  - exists d. split; [reflexivity | exact Hd].
  - unfold js_or. cbn [truthy].
    destruct (String.eqb_spec s "") as [-> | Hne]; cbn [negb].
    + exists d. split; [reflexivity | exact Hd].
    + exists s. split; [reflexivity | exact Hne].
Qed.

(** X18.  The cells of a row fall back when their field is falsy.  For an
    application (any object, with fields missing, null or empty), the
    expressions for company, job title, date and status text are the field
    when it is truthy and the fallback text ("Unknown Company", "Job
    Application", "Recently", "pending") otherwise, so they are always
    truthy; when the field is a string, null or missing, the cell is a
    non-empty string.  The badge has the blue, green or red class exactly
    for the statuses [applied], [interview] and [rejected] and the gray one
    for anything else; the key of the row is the application's id, or its
    position in the list when the id is falsy.  The title expression of an
    email row is always truthy too. *)
Theorem row_cells_fall_back (app email pid : JsVal) (index : nat)
        (row : DashboardView.ApplicationRow) (erow : Dashboard.EmailRow) :
  (DashboardView.render_application app index = inr row ->
   exists id company title date status,
     (get_prop app "id" = inr id
      /\ get_prop app "company_name" = inr company
      /\ get_prop app "job_title" = inr title
      /\ get_prop app "applied_date" = inr date
      /\ get_prop app "status" = inr status)
     /\ (DashboardView.app_company row
         = (if truthy company then company else VStr "Unknown Company")
         /\ DashboardView.app_title row
            = (if truthy title then title else VStr "Job Application")
         /\ DashboardView.app_date row
            = (if truthy date then date else VStr "Recently")
         /\ DashboardView.app_status row
            = (if truthy status then status else VStr "pending"))
     /\ (truthy (DashboardView.app_company row) = true
         /\ truthy (DashboardView.app_title row) = true
         /\ truthy (DashboardView.app_date row) = true
         /\ truthy (DashboardView.app_status row) = true)
     /\ (match company with
         | VUndefined | VNull | VStr _ =>
             exists s, DashboardView.app_company row = VStr s /\ s <> ""
         | _ => True
         end
         /\ match title with
            | VUndefined | VNull | VStr _ =>
                exists s, DashboardView.app_title row = VStr s /\ s <> ""
            | _ => True
            end
         /\ match date with
            | VUndefined | VNull | VStr _ =>
                exists s, DashboardView.app_date row = VStr s /\ s <> ""
            | _ => True
            end
         /\ match status with
            | VUndefined | VNull | VStr _ =>
                exists s, DashboardView.app_status row = VStr s /\ s <> ""
            | _ => True
            end)
     /\ DashboardView.app_key row
        = (if truthy id then id else VNum (Z.of_nat index))
     /\ DashboardView.app_badge row
        = (if strict_eq status (VStr "applied")
           then "bg-blue-500/20 text-blue-400"
           else if strict_eq status (VStr "interview")
           then "bg-green-500/20 text-green-400"
           else if strict_eq status (VStr "rejected")
           then "bg-red-500/20 text-red-400"
           else "bg-gray-500/20 text-gray-400")
     /\ (truthy status = false ->
         DashboardView.app_status row = VStr "pending"
         /\ DashboardView.app_badge row = "bg-gray-500/20 text-gray-400"))
  /\ (Dashboard.render_email pid email = inr erow ->
      truthy (Dashboard.row_title erow) = true).
Proof.
  split.
  - unfold DashboardView.render_application.
    destruct (get_prop app "id") as [e | id]; [discriminate|].
    destruct (get_prop app "company_name") as [e | company]; [discriminate|].
    destruct (get_prop app "job_title") as [e | title]; [discriminate|].
    destruct (get_prop app "applied_date") as [e | date]; [discriminate|].
    destruct (get_prop app "status") as [e | status]; [discriminate|].
    intros H. injection H as <-.
    exists id, company, title, date, status.
    cbn [DashboardView.app_company DashboardView.app_title DashboardView.app_date
         DashboardView.app_status DashboardView.app_key DashboardView.app_badge].
    split; [repeat split|].
    split; [repeat split|].
    split; [repeat split; apply truthy_js_or_fallback; reflexivity|].
    split.
    { split; [|split; [|split]].
      - apply (js_or_text company "Unknown Company"). discriminate.
      - apply (js_or_text title "Job Application"). discriminate.
      - apply (js_or_text date "Recently"). discriminate.
      - apply (js_or_text status "pending"). discriminate. }
    split; [reflexivity|]. split; [reflexivity|].
    intros Hs. split.
    + unfold js_or. rewrite Hs. reflexivity.
    + unfold DashboardView.badge_class.
      destruct status; try discriminate Hs; try reflexivity.
      cbn in Hs. apply negb_false_iff in Hs. apply String.eqb_eq in Hs.
      subst s. reflexivity.
  - intros H. destruct (render_email_fields _ _ _ H) as (subject & _ & -> & _).
    apply truthy_js_or_fallback. reflexivity.
Qed.

Lemma row_cells_fall_back_witness :
  exists row,
    DashboardView.render_application sample_application 3 = inr row
    /\ DashboardView.app_title row = VStr "Job Application"
    /\ truthy (DashboardView.app_date row) = true
    /\ DashboardView.app_status row = VStr "pending".
Proof.
  set (row := DashboardView.mkAppRow (VNum 7) (VStr "Initech")
                (VStr "Job Application") (VStr "Recently")
                "bg-gray-500/20 text-gray-400" (VStr "pending")).
  destruct (row_cells_fall_back sample_application untitled_email VNull 3 row
              (Dashboard.mkRow (VStr "18c2f") (VStr "No Subject")
                 (VStr "jobs@example.com") (VStr "Mon, 1 Jan 2026")
                 (Dashboard.mkButton false false))) as (Happ & _).
  destruct (Happ eq_refl)
    as (id & company & title & date & status & _ & _ & (_ & _ & Hdate & _) & _).
  exists row. split; [reflexivity|]. split; [reflexivity|].
  split; [exact Hdate | reflexivity].
Defined.

Lemma render_application_fails_iff app index :
  (exists e, DashboardView.render_application app index = inl e)
  <-> (app = VNull \/ app = VUndefined).
Proof.
  split.
  - intros [e H]. destruct app; try discriminate H; auto.
  - intros [-> | ->]; eexists; reflexivity.
Qed.

(** X21.  Evaluating the callback of [applications.map((app, index) => ...)]
    over an array of applications gives the values of one row per
    application, numbered by position: the row at position [i] is built
    from the application at position [i] with index [i] (the key of an
    application without an id).  The callback throws (reading a property of
    null or undefined) exactly when some element of the array is null or
    undefined.  What React does with the values afterwards is not part of
    this statement. *)
Theorem render_applications_rows (xs : list JsVal) :
  (forall rows,
      DashboardView.render_applications 0 xs = inr rows ->
      length rows = length xs
      /\ forall i app,
          xs !! i = Some app ->
          exists row, rows !! i = Some row
                      /\ DashboardView.render_application app i = inr row)
  /\ ((exists e, DashboardView.render_applications 0 xs = inl e)
      <-> exists app, app ∈ xs /\ (app = VNull \/ app = VUndefined)).
Proof.
  assert (Hgen : forall n,
    (forall rows,
        DashboardView.render_applications n xs = inr rows ->
        length rows = length xs
        /\ forall i app,
            xs !! i = Some app ->
            exists row, rows !! i = Some row
                        /\ DashboardView.render_application app (n + i) = inr row)
    /\ ((exists e, DashboardView.render_applications n xs = inl e)
        <-> exists app, app ∈ xs /\ (app = VNull \/ app = VUndefined))).
  { induction xs as [| x xs' IH]; intros n.
    - split.
      + intros rows H. injection H as <-. split; [reflexivity|].
        intros i app Hi. rewrite lookup_nil in Hi. discriminate.
      + split.
        * intros [e H]. discriminate.
        * intros (app & Hin & _). apply elem_of_nil in Hin. contradiction.
    - destruct (IH (S n)) as (IHrows & IHfail).
      cbn [DashboardView.render_applications].
      destruct (DashboardView.render_application x n) as [e | row] eqn:Hx.
      + split; [discriminate|]. split.
        * intros _. exists x. split; [apply list_elem_of_here|].
          apply (render_application_fails_iff x n). exists e. exact Hx.
        * intros _. exists e. reflexivity.
      + destruct (DashboardView.render_applications (S n) xs') as [e | rows']
          eqn:Hxs.
        * split; [discriminate|]. split.
          -- intros _. destruct IHfail as (Hsome & _).
             destruct Hsome as (app & Hin & Hnull); [exists e; reflexivity|].
             exists app. split; [apply list_elem_of_further, Hin | exact Hnull].
          -- intros _. exists e. reflexivity.
        * split.
          -- intros rows H. injection H as <-.
             destruct (IHrows rows' eq_refl) as (Hlen & Hat).
             split; [cbn; rewrite Hlen; reflexivity|].
             intros [| i] app Hi.
             ++ injection Hi as <-. exists row.
                split; [reflexivity|]. rewrite Nat.add_0_r. exact Hx.
             ++ destruct (Hat i app Hi) as (r & Hr & Hrender).
                exists r. split; [exact Hr|].
                rewrite Nat.add_succ_r. exact Hrender.
          -- split; [intros [e H]; discriminate|].
             intros (app & Hin & Hnull).
             apply elem_of_cons in Hin as [-> | Hin].
             ++ apply (render_application_fails_iff x n) in Hnull as [e He].
                rewrite Hx in He. discriminate.
             ++ destruct IHfail as (_ & Hfail).
                destruct Hfail as [e He]; [exists app; auto | discriminate]. }
  apply (Hgen 0).
Qed.

Lemma render_applications_rows_witness :
  exists rows,
    DashboardView.render_applications
      0 [sample_application; VObj [("company_name", VStr "Globex")]] = inr rows
    /\ length rows = 2.
Proof.
  destruct (render_applications_rows
              [sample_application; VObj [("company_name", VStr "Globex")]])
    as (Hrows & _).
  eexists. split; [reflexivity|].
  eapply Hrows. reflexivity.
Defined.

(** *** The welcome line *)

Lemma before_char_split c s :
  count_byte c (DashboardView.before_char c s) = 0
  /\ exists rest,
      s = DashboardView.before_char c s +:+ rest
      /\ (rest = "" \/ exists r, rest = String c r).
Proof.
  induction s as [| a s IH].
  - split; [reflexivity|]. exists "". split; [reflexivity | left; reflexivity].
  - cbn [DashboardView.before_char].
    destruct (Ascii.eqb_spec a c) as [-> | Hne].
    + split; [reflexivity|]. exists (String c s).
      split; [reflexivity | right; eexists; reflexivity].
    + destruct IH as (Hcount & rest & Hs & Hrest).
      split.
      * cbn [count_byte]. rewrite Hcount.
        destruct (Ascii.eqb_spec a c); [contradiction | reflexivity].
      * exists rest. split; [|exact Hrest].
        step_append. f_equal. exact Hs.
Qed.

(** X19.  The name in the welcome line is the part of the user's email
    before the first [@]: it contains no [@], and the email is that name
    followed by nothing or by a rest that starts with [@].  Without a user,
    or for a user without an email, the line shows no name; an email that
    is not a string (a number, an object) makes the render throw. *)
Theorem welcome_name_is_local_part (user : JsVal) :
  (forall email,
      opt_chain user "email" = VStr email ->
      exists name,
        DashboardView.welcome_name user = inr (VStr name)
        /\ count_byte "@" name = 0
        /\ exists rest,
            email = name +:+ rest /\ (rest = "" \/ exists r, rest = String "@" r))
  /\ ((user = VNull \/ user = VUndefined
       \/ opt_chain user "email" = VNull \/ opt_chain user "email" = VUndefined) ->
      DashboardView.welcome_name user = inr VUndefined)
  /\ (forall email,
         opt_chain user "email" = email ->
         (match email with
          | VBool _ | VNum _ | VArr _ | VObj _ => True
          | _ => False
          end) ->
         exists e, DashboardView.welcome_name user = inl e).
Proof.
  unfold DashboardView.welcome_name. split; [|split].
  - intros email ->. destruct (before_char_split "@" email) as (Hc & rest & Hs & Hr).
    eexists. split; [reflexivity|]. split; [exact Hc|].
    exists rest. split; assumption.
  - intros [-> | [-> | [-> | ->]]]; reflexivity.
  - intros email Heq Hkind. rewrite Heq.
    destruct email; try contradiction; eexists; reflexivity.
Qed.

Lemma welcome_name_is_local_part_witness :
  DashboardView.welcome_name
    (VObj [("id", VStr "u-1"); ("email", VStr "ada@example.com")])
  = inr (VStr "ada")
  /\ DashboardView.welcome_name VNull = inr VUndefined.
Proof.
  destruct (welcome_name_is_local_part
              (VObj [("id", VStr "u-1"); ("email", VStr "ada@example.com")]))
    as (Hname & _).
  destruct (welcome_name_is_local_part VNull) as (_ & Hnone & _).
  split; [|apply Hnone; left; reflexivity].
  destruct (Hname "ada@example.com" eq_refl) as (name & Hw & _).
  reflexivity.
Defined.

(** *** Runs side by side *)

Lemma replay_loadApplications_fields VITE_API_URL net st :
  Dashboard.replay st (trace (Dashboard.loadApplications VITE_API_URL net))
  = Dashboard.mkState
      (Dashboard.emails st)
      (match outcome (Api.getApplications VITE_API_URL net) with
       | inr apps => apps
       | inl _ => Dashboard.applications st
       end)
      (Dashboard.loading st) (Dashboard.error st) (Dashboard.processingId st).
Proof.
  rewrite loadApplications_eq. unfold trace; cbn [fst].
  destruct (outcome _); destruct st; reflexivity.
Qed.

(** X22.  A Refresh and a Fetch Emails do not interfere: [loadApplications]
    writes the applications state and nothing else, [handleFetchEmails]
    never writes it, so running the two one after the other gives the same
    state in either order, whatever the backend answers to each. *)
Theorem refresh_commutes_with_fetch (VITE_API_URL : JsVal)
        (net1 net2 : Request -> FetchOutcome) (token : JsVal)
        (st : Dashboard.State) :
  Dashboard.after
    (Dashboard.after st (Dashboard.handleFetchEmails VITE_API_URL net1 token))
    (Dashboard.loadApplications VITE_API_URL net2)
  = Dashboard.after
      (Dashboard.after st (Dashboard.loadApplications VITE_API_URL net2))
      (Dashboard.handleFetchEmails VITE_API_URL net1 token).
Proof.
  unfold Dashboard.after. rewrite !replay_loadApplications_fields.
  destruct (truthy token) eqn:Htok.
  - rewrite (handleFetchEmails_eq _ _ _ Htok). unfold trace; cbn [fst].
    destruct (outcome (Api.fetchEmails _ _ _ _ _)); reflexivity.
  - rewrite (handleFetchEmails_guard _ _ _ Htok). reflexivity.
Qed.

(** X23.  Clicking again changes nothing when the backend answers the same:
    running [handleFetchEmails], [handleProcessLatest], [handleSaveEmail] or
    [loadApplications] a second time against the same answers leaves the
    state the first run produced. *)
Theorem rerun_changes_nothing (VITE_API_URL : JsVal)
        (net : Request -> FetchOutcome) (token emailId : JsVal)
        (st : Dashboard.State) :
  let fetch := Dashboard.handleFetchEmails VITE_API_URL net token in
  let process := Dashboard.handleProcessLatest VITE_API_URL net token in
  let save := Dashboard.handleSaveEmail VITE_API_URL net token emailId in
  let load := Dashboard.loadApplications VITE_API_URL net in
  Dashboard.after (Dashboard.after st fetch) fetch = Dashboard.after st fetch
  /\ Dashboard.after (Dashboard.after st process) process
     = Dashboard.after st process
  /\ Dashboard.after (Dashboard.after st save) save = Dashboard.after st save
  /\ Dashboard.after (Dashboard.after st load) load = Dashboard.after st load.
Proof.
  cbv zeta. unfold Dashboard.after.
  destruct (truthy token) eqn:Htok.
  - rewrite (handleFetchEmails_eq _ _ _ Htok), (handleProcessLatest_eq _ _ _ Htok),
      (handleSaveEmail_eq _ _ _ _ Htok), !loadApplications_eq.
    unfold trace; cbn [fst].
    destruct (outcome (Api.fetchEmails _ _ _ _ _));
      destruct (outcome (Api.processLatestEmail _ _ _ _));
      destruct (outcome (Api.saveApplication _ _ _ _));
      destruct (outcome (Api.getApplications _ _));
      repeat split.
  - rewrite (handleFetchEmails_guard _ _ _ Htok),
      (handleProcessLatest_guard _ _ _ Htok), (handleSaveEmail_guard _ _ _ _ Htok),
      !loadApplications_eq.
    unfold trace; cbn [fst].
    destruct (outcome (Api.getApplications _ _)); repeat split.
Qed.

(** *** The error texts at concrete answers *)

Lemma apiRequest_error_message_witness :
  outcome (Api.apiRequest VUndefined backend_bad_gateway "/api/applications"
                          None VUndefined)
  = inl (mkExn "Unknown error")
  /\ outcome (Api.apiRequest VUndefined (backend_error "Quota exceeded")
                             "/api/applications" None VUndefined)
     = inl (mkExn "Quota exceeded")
  /\ outcome (Api.apiRequest VUndefined (backend_error "")
                             "/api/applications" None VUndefined)
     = inl (mkExn "API request failed").
Proof.
  destruct (apiRequest_error_message VUndefined backend_bad_gateway
              "/api/applications" None VUndefined
              (mkResponse false
                 (Malformed (mkExn "Unexpected token < in JSON at position 0")))
              eq_refl eq_refl) as (Hbad & _).
  destruct (apiRequest_error_message VUndefined (backend_error "Quota exceeded")
              "/api/applications" None VUndefined
              (mkResponse false (Parsed (VObj [("detail", VStr "Quota exceeded")])))
              eq_refl eq_refl) as (_ & Hdetail & _).
  destruct (apiRequest_error_message VUndefined (backend_error "")
              "/api/applications" None VUndefined
              (mkResponse false (Parsed (VObj [("detail", VStr "")])))
              eq_refl eq_refl) as (_ & _ & Hfalsy).
  split.
  - apply (Hbad (mkExn "Unexpected token < in JSON at position 0") eq_refl).
  - split.
    + apply (Hdetail [("detail", VStr "Quota exceeded")] "Quota exceeded"
                     eq_refl eq_refl).
      discriminate.
    + apply (Hfalsy (VObj [("detail", VStr "")]) (VStr "") eq_refl eq_refl eq_refl).
Defined.

Lemma fetch_emails_failure_text_witness :
  truthy sample_token = true
  /\ Dashboard.error
       (Dashboard.after inbox_state
          (Dashboard.handleFetchEmails VUndefined backend_down sample_token))
     = VStr "Failed to fetch"
  /\ Dashboard.emails
       (Dashboard.after inbox_state
          (Dashboard.handleFetchEmails VUndefined backend_down sample_token))
     = VArr [untitled_email]
  /\ Dashboard.error
       (Dashboard.after inbox_state
          (Dashboard.handleFetchEmails VUndefined backend_ok_html sample_token))
     = VStr "Unexpected token < in JSON at position 0"
  /\ Dashboard.error
       (Dashboard.after inbox_state
          (Dashboard.handleFetchEmails VUndefined backend_bad_gateway sample_token))
     = VStr "Unknown error"
  /\ Dashboard.banner
       (Dashboard.after inbox_state
          (Dashboard.handleFetchEmails VUndefined (backend_error "Quota exceeded")
                                       sample_token))
     = Some (VStr "Quota exceeded")
  /\ Dashboard.error
       (Dashboard.after inbox_state
          (Dashboard.handleFetchEmails VUndefined (backend_error "") sample_token))
     = VStr "API request failed".
Proof.
  destruct (fetch_emails_failure_text VUndefined backend_down inbox_state
              sample_token eq_refl) as (Hgen & Hdown & _).
  destruct (fetch_emails_failure_text VUndefined backend_ok_html inbox_state
              sample_token eq_refl) as (_ & _ & Hhtml & _).
  destruct (fetch_emails_failure_text VUndefined backend_bad_gateway inbox_state
              sample_token eq_refl) as (_ & _ & _ & Hbad & _).
  destruct (fetch_emails_failure_text VUndefined (backend_error "Quota exceeded")
              inbox_state sample_token eq_refl) as (_ & _ & _ & _ & Hdetail & _).
  destruct (fetch_emails_failure_text VUndefined (backend_error "")
              inbox_state sample_token eq_refl) as (_ & _ & _ & _ & _ & Hfalsy).
  split; [reflexivity|].
  split; [apply (Hdown (mkExn "Failed to fetch") eq_refl)|].
  split; [apply (Hgen (mkExn "Failed to fetch") eq_refl)|].
  split; [apply (Hhtml (mkExn "Unexpected token < in JSON at position 0") eq_refl)|].
  split; [apply (Hbad (mkExn "Unexpected token < in JSON at position 0") eq_refl)|].
  split.
  - apply (Hdetail [("detail", VStr "Quota exceeded")] "Quota exceeded" eq_refl
                   eq_refl).
    discriminate.
  - apply (Hfalsy (VObj [("detail", VStr "")]) (VStr "") eq_refl eq_refl eq_refl).
Defined.

(** *** Endpoints *)

Lemma string_forall_mono (p q : ascii -> bool) (s : string) :
  (forall c, p c = true -> q c = true) ->
  string_forall p s = true -> string_forall q s = true.
Proof.
  intros Hpq. induction s as [| a r IH]; [reflexivity|].
  cbn [string_forall]. intros H. apply andb_true_iff in H as [Ha Hr].
  rewrite (Hpq a Ha), (IH Hr). reflexivity.
Qed.

Lemma url_safe_query_byte c : url_safe c = true -> query_byte c = true.
Proof. intros H. unfold query_byte. rewrite H. reflexivity. Qed.

Lemma url_search_params_query_bytes (kvs : list (string * JsVal)) :
  string_forall query_byte (url_search_params kvs) = true.
Proof.
  assert (Henc : forall s, string_forall query_byte (form_urlencode s) = true).
  { intros s. apply (string_forall_mono url_safe); [apply url_safe_query_byte|].
    apply form_urlencode_safe. }
  assert (Hone : forall k v,
             string_forall query_byte
               (form_urlencode k +:+ "=" +:+ form_urlencode (js_to_string v))
             = true).
  { intros k v. rewrite string_forall_app, Henc.
    change ("=" +:+ form_urlencode (js_to_string v))
      with (String "=" (form_urlencode (js_to_string v))).
    cbn [string_forall andb]. rewrite Henc. reflexivity. }
  induction kvs as [| [k v] r IH]; [reflexivity|].
  cbn [url_search_params]. destruct r as [| kv r']; [apply Hone|].
  set (rest := url_search_params (kv :: r')) in *.
  rewrite string_forall_app, Hone.
  change ("&" +:+ rest) with (String "&" rest).
  cbn [string_forall andb]. rewrite IH. reflexivity.
Qed.

Lemma classify_emails_query q :
  string_forall query_byte q = true ->
  classify (Some no_options) ("/api/emails?" +:+ q) = Some GetEmails.
Proof.
  intros H. unfold classify. step_append. change ("" +:+ q) with q.
  cbn. rewrite H. reflexivity.
Qed.

Lemma classify_process_latest_query q :
  string_forall query_byte q = true ->
  classify (Some post_options) ("/api/applications/process-latest?" +:+ q)
  = Some PostProcessLatest.
Proof.
  intros H. unfold classify. step_append. change ("" +:+ q) with q.
  cbn. rewrite H. reflexivity.
Qed.

Lemma classify_save id :
  clean_segment id = true ->
  classify (Some post_options) ("/api/applications/save/" +:+ id)
  = Some PostSaveApplication.
Proof.
  intros H. unfold classify. step_append. change ("" +:+ id) with id.
  cbn. rewrite H. reflexivity.
Qed.

Lemma classify_email id :
  clean_segment id = true ->
  classify (Some no_options) ("/api/emails/" +:+ id) = Some GetEmail.
Proof.
  intros H. unfold classify. step_append. change ("" +:+ id) with id.
  cbn. rewrite H. reflexivity.
Qed.

Section Endpoints.

Variable VITE_API_URL : JsVal.
Variable net : Request -> FetchOutcome.

Abbreviation request_of := (Api.request_of VITE_API_URL).
Abbreviation emails_request := (Dashboard.emails_request VITE_API_URL).
Abbreviation applications_request := (Dashboard.applications_request VITE_API_URL).
Abbreviation process_latest_request := (Dashboard.process_latest_request VITE_API_URL).
Abbreviation save_request := (Dashboard.save_request VITE_API_URL).
Abbreviation loadApplications := (Dashboard.loadApplications VITE_API_URL net).
Abbreviation handleFetchEmails := (Dashboard.handleFetchEmails VITE_API_URL net).
Abbreviation handleProcessLatest := (Dashboard.handleProcessLatest VITE_API_URL net).
Abbreviation handleSaveEmail := (Dashboard.handleSaveEmail VITE_API_URL net).

(** C3, as the code has it.  [lib/api.js] exports six functions, each one
    call of [apiRequest].  Four of them name the four endpoints (GET emails,
    GET applications, POST save-application, POST process-latest-email);
    [fetchEmail] (GET [/api/emails/<id>]) and [healthCheck] (GET [/]) name
    two more.  The Dashboard calls only the four: every request one of its
    handlers hands to [fetch] is one of four requests, whose URLs are
    [API_BASE] followed by [/api/emails?query=in%3Ainbox&max_results=10],
    [/api/applications], [/api/applications/process-latest?query=in%3Ainbox]
    and [/api/applications/save/] with the email id written after it as it
    is.  For an id made of letters, digits, [-] and [_] that last request
    names, relative to [API_BASE], the save-application endpoint (and
    [fetchEmail] the single email). *)
Theorem api_endpoints token query maxResults emailId :
  (trace (Api.fetchEmails VITE_API_URL net token query maxResults)
   = [EFetch (request_of (Api.emails_endpoint query maxResults)
                         (Some no_options) token)]
   /\ classify (Some no_options) (Api.emails_endpoint query maxResults)
      = Some GetEmails)
  /\ (trace (Api.getApplications VITE_API_URL net)
      = [EFetch (request_of Api.applications_endpoint None VUndefined)]
      /\ classify None Api.applications_endpoint = Some GetApplications)
  /\ (trace (Api.saveApplication VITE_API_URL net token emailId)
      = [EFetch (request_of (Api.save_endpoint emailId)
                            (Some post_options) token)]
      /\ (clean_segment (js_to_string emailId) = true ->
          classify (Some post_options) (Api.save_endpoint emailId)
          = Some PostSaveApplication))
  /\ (trace (Api.processLatestEmail VITE_API_URL net token query)
      = [EFetch (request_of (Api.process_latest_endpoint query)
                            (Some post_options) token)]
      /\ classify (Some post_options) (Api.process_latest_endpoint query)
         = Some PostProcessLatest)
  /\ (trace (Api.fetchEmail VITE_API_URL net token emailId)
      = [EFetch (request_of (Api.email_endpoint emailId)
                            (Some no_options) token)]
      /\ (clean_segment (js_to_string emailId) = true ->
          classify (Some no_options) (Api.email_endpoint emailId)
          = Some GetEmail))
  /\ (trace (Api.healthCheck VITE_API_URL net)
      = [EFetch (request_of Api.health_endpoint None VUndefined)]
      /\ classify None Api.health_endpoint = Some GetRoot)
  /\ (forall r,
        r ∈ requests (trace loadApplications)
            ++ requests (trace (handleFetchEmails token))
            ++ requests (trace (handleProcessLatest token))
            ++ requests (trace (handleSaveEmail token emailId)) ->
        r ∈ [emails_request token; applications_request;
             process_latest_request token; save_request token emailId])
  /\ (req_url (emails_request token)
      = Api.API_BASE VITE_API_URL
          +:+ "/api/emails?query=in%3Ainbox&max_results=10"
      /\ req_method (emails_request token) = None)
  /\ (req_url applications_request
      = Api.API_BASE VITE_API_URL +:+ "/api/applications"
      /\ req_method applications_request = None)
  /\ (req_url (process_latest_request token)
      = Api.API_BASE VITE_API_URL
          +:+ "/api/applications/process-latest?query=in%3Ainbox"
      /\ req_method (process_latest_request token) = Some "POST")
  /\ (req_url (save_request token emailId)
      = Api.API_BASE VITE_API_URL
          +:+ "/api/applications/save/" +:+ js_to_string emailId
      /\ req_method (save_request token emailId) = Some "POST").
Proof.
  split; [split; [apply apiRequest_trace|]|].
  { unfold Api.emails_endpoint.
    apply classify_emails_query, url_search_params_query_bytes. }
  split; [split; [apply apiRequest_trace | reflexivity]|].
  split; [split; [apply apiRequest_trace | apply classify_save]|].
  split; [split; [apply apiRequest_trace|]|].
  { unfold Api.process_latest_endpoint.
    apply classify_process_latest_query, url_search_params_query_bytes. }
  split; [split; [apply apiRequest_trace | apply classify_email]|].
  split; [split; [apply apiRequest_trace | reflexivity]|].
  split; [intros r; apply handler_requests_listed|].
  repeat split.
Qed.

End Endpoints.

Lemma api_endpoints_witness :
  let r := Dashboard.save_request VUndefined sample_token (VStr "18c2f") in
  clean_segment (js_to_string (VStr "18c2f")) = true
  /\ r ∈ requests (trace (Dashboard.loadApplications VUndefined backend_down))
         ++ requests (trace (Dashboard.handleFetchEmails VUndefined backend_down
                                                       sample_token))
         ++ requests (trace (Dashboard.handleProcessLatest VUndefined backend_down
                                                         sample_token))
         ++ requests (trace (Dashboard.handleSaveEmail VUndefined backend_down
                                                     sample_token (VStr "18c2f")))
  /\ r ∈ [Dashboard.emails_request VUndefined sample_token;
          Dashboard.applications_request VUndefined;
          Dashboard.process_latest_request VUndefined sample_token;
          Dashboard.save_request VUndefined sample_token (VStr "18c2f")]
  /\ classify (Some post_options) (Api.save_endpoint (VStr "18c2f"))
     = Some PostSaveApplication
  /\ classify (Some no_options) (Api.email_endpoint (VStr "18c2f"))
     = Some GetEmail.
Proof.
  intros r.
  destruct (api_endpoints VUndefined backend_down sample_token
              (VStr "in:inbox") (VNum 10) (VStr "18c2f"))
    as (_ & _ & (_ & Hsave) & _ & (_ & Hemail) & _ & Hlisted & _).
  assert (Hin : r ∈ requests (trace (Dashboard.loadApplications VUndefined backend_down))
      ++ requests (trace (Dashboard.handleFetchEmails VUndefined backend_down
                                                    sample_token))
      ++ requests (trace (Dashboard.handleProcessLatest VUndefined backend_down
                                                      sample_token))
      ++ requests (trace (Dashboard.handleSaveEmail VUndefined backend_down
                                                  sample_token (VStr "18c2f")))).
  { vm_compute. do 3 apply list_elem_of_further. apply list_elem_of_here. }
  split; [reflexivity|].
  split; [exact Hin|].
  split; [apply (Hlisted r Hin)|].
  split; [apply Hsave | apply Hemail]; reflexivity.
Defined.

(** C3: [healthCheck] and [fetchEmail] are API functions of the client that
    target an endpoint outside the four. *)
Lemma health_check_is_another_endpoint :
  trace (Api.healthCheck VUndefined backend_down)
  = [EFetch (Api.request_of VUndefined "/" None VUndefined)]
  /\ req_url (Api.request_of VUndefined "/" None VUndefined)
     = "http://localhost:8000/"
  /\ classify None "/" = Some GetRoot
  /\ dashboard_endpoint GetRoot = false
  /\ trace (Api.fetchEmail VUndefined backend_down sample_token (VStr "18c2f"))
     = [EFetch (Api.request_of VUndefined "/api/emails/18c2f" (Some no_options)
                               sample_token)]
  /\ req_url (Api.request_of VUndefined "/api/emails/18c2f" (Some no_options)
                             sample_token)
     = "http://localhost:8000/api/emails/18c2f"
  /\ classify (Some no_options) "/api/emails/18c2f" = Some GetEmail
  /\ dashboard_endpoint GetEmail = false.
Proof. repeat split. Qed.
